(** * The trade-copy loop of [main.py], embedded in Rocq

    The program polls an exchange account for its latest trades and mirrors
    each of them: a lead buy becomes a market buy worth a tenth of the free
    USDT balance, a lead sell liquidates the whole tracked holding.  What has
    been handled is kept in the SQLite file [trades.db], in the two tables
    [processed_trades] and [holdings].

    The embedding follows [main.py] function by function.  The database, the
    exchange requests issued, the log and the one local variable that survives
    from one loop iteration to the next ([amount]) are threaded through a
    state-and-exception monad.

    Numbers: the program computes with Python floats.  Amounts, prices and
    balances are exact rationals here ([Qc]), so every statement below is about
    the arithmetic the program is written in, free of rounding. *)

From Stdlib Require Import QArith Qcanon.
From stdpp Require Import gmap strings pretty list fin_maps numbers.

Open Scope Qc_scope.

(** ** Exceptions *)

(** The exception classes the handlers of [fetch_and_copy_trades] tell apart,
    and the ones the interpreter and [sqlite3] raise in the code modelled. *)
Inductive exn : Type :=
  | InsufficientFunds                 (* ccxt.InsufficientFunds, a subclass of ExchangeError *)
  | ExchangeError                     (* any other ccxt.ExchangeError *)
  | NetworkError                      (* ccxt.NetworkError *)
  | ZeroDivisionError                 (* float division by zero *)
  | UnboundLocalError                 (* a local variable read before assignment *)
  | IntegrityError                    (* sqlite3.IntegrityError: PRIMARY KEY violated *)
  | OtherException (cls : string).    (* any other subclass of Exception *)

(** ** The ledger: [trades.db] *)

(** A row of [processed_trades] without its key.  The column [processed_at]
    holds [datetime.now()]; it is never read back and is left out. *)
Record ProcessedTrade : Type := {
  pt_symbol : string;
  pt_amount : Qc;
  pt_side : string
}.

(** Both tables have a TEXT PRIMARY KEY: finite maps from the key. *)
Record DB : Type := {
  processed_trades : gmap string ProcessedTrade;
  holdings : gmap string Qc
}.

Definition empty_db : DB := {| processed_trades := ∅; holdings := ∅ |}.

(** The three writing statements of the program. *)
Inductive Stmt : Type :=
  | InsertProcessedTrade (ord_id symbol : string) (amount : Qc) (side : string)
  | UpdateHolding (new_amount : Qc) (symbol : string)
  | InsertHolding (symbol : string) (amount : Qc).

(** Effect of a statement on the tables; [None] when SQLite rejects it because
    the primary key is taken.  An UPDATE of a missing row changes nothing. *)
Definition run_stmt (s : Stmt) (d : DB) : option DB :=
  match s with
  | InsertProcessedTrade ord_id symbol amount side =>
      match processed_trades d !! ord_id with
      | Some _ => None
      | None =>
          Some {| processed_trades :=
                    <[ord_id := {| pt_symbol := symbol; pt_amount := amount;
                                   pt_side := side |}]> (processed_trades d);
                  holdings := holdings d |}
      end
  | UpdateHolding new_amount symbol =>
      Some {| processed_trades := processed_trades d;
              holdings := alter (λ _, new_amount) symbol (holdings d) |}
  | InsertHolding symbol amount =>
      match holdings d !! symbol with
      | Some _ => None
      | None =>
          Some {| processed_trades := processed_trades d;
                  holdings := <[symbol := amount]> (holdings d) |}
      end
  end.

(** Does the statement write to the [holdings] table? *)
Definition writes_holdings (s : Stmt) : bool :=
  match s with
  | InsertProcessedTrade _ _ _ _ => false
  | UpdateHolding _ _ | InsertHolding _ _ => true
  end.

(** Number of committed writes to [holdings] in a trace of statements. *)
Definition holding_writes (tr : list Stmt) : nat :=
  length (List.filter writes_holdings tr).

Arguments holding_writes : simpl never.

(** ** The exchange *)

(** A trade as [fetch_my_trades] reports it; the program reads these four keys
    and no other. *)
Record Trade : Type := {
  trade_order : string;
  trade_symbol : string;
  trade_side : string;
  trade_price : Qc
}.

(** The requests the loop sends to the exchange. *)
Inductive Request : Type :=
  | FetchBalance
  | FetchAccounts
  | FetchMyTrades (limit : nat)
  | SetMarginMode (mode symbol : string)
  | CreateMarketOrder (symbol side : string) (amount : Qc).

(** The exchange is outside the program: any deterministic answer to a request,
    given the requests sent before it, is possible.  [market] is the local
    lookup [exchange.market(symbol)['quote']], which sends nothing. *)
Record Exchange : Type := {
  fetch_balance : list Request → exn + Qc;           (* balance['USDT']['free'] *)
  fetch_accounts : list Request → exn + unit;
  fetch_my_trades : list Request → exn + list Trade;
  market : string → exn + string;
  set_margin_mode : list Request → string → string → exn + unit;
  create_market_order : list Request → string → string → Qc → exn + string
                                                      (* new_order['id'] *)
}.

Definition is_order (r : Request) : bool :=
  match r with CreateMarketOrder _ _ _ => true | _ => false end.

(** The market orders among a list of requests. *)
Definition orders (rs : list Request) : list Request :=
  List.filter is_order rs.

(** ** The state threaded through the loop *)

Inductive LogLine : Type :=
  | Info (msg : string)
  | Warning (msg : string)
  | Error (msg : string) (e : exn).

Record World : Type := {
  db : DB;                      (* the tables of trades.db *)
  committed : list Stmt;        (* the writes committed so far, oldest first *)
  requests : list Request;      (* the requests sent so far, oldest first *)
  logged : list LogLine;        (* the lines logged so far, oldest first *)
  local_amount : option Qc      (* the local [amount]; None while unbound *)
}.

Definition initial_world : World :=
  {| db := empty_db; committed := []; requests := []; logged := [];
     local_amount := None |}.

(** ** A state-and-exception monad *)

Definition M (A : Type) : Type := World → (exn + A) * World.

#[global] Instance M_ret : MRet M := λ A a w, (inr a, w).

#[global] Instance M_bind : MBind M := λ A B f m w,
  match m w with
  | (inl e, w') => (inl e, w')
  | (inr a, w') => f a w'
  end.

Definition raise {A : Type} (e : exn) : M A := λ w, (inl e, w).

(** [try: body except Exception as e: handler e]. *)
Definition try_except {A : Type} (body : M A) (handler : exn → M A) : M A :=
  λ w, match body w with
       | (inl e, w') => handler e w'
       | (inr a, w') => (inr a, w')
       end.

(** [for x in xs: body x]; an exception leaves the loop. *)
Fixpoint for_each {A : Type} (xs : list A) (body : A → M unit) : M unit :=
  match xs with
  | [] => mret ()
  | x :: xs' => body x ;; for_each xs' body
  end.

Definition logger (l : LogLine) : M unit := λ w,
  (inr (), {| db := db w; committed := committed w; requests := requests w;
              logged := logged w ++ [l]; local_amount := local_amount w |}).

(** Sends a request: it is recorded, and the exchange answers from the
    requests sent before it. *)
Definition send {A : Type} (r : Request) (answer : list Request → exn + A) : M A :=
  λ w, (answer (requests w),
        {| db := db w; committed := committed w; requests := requests w ++ [r];
           logged := logged w; local_amount := local_amount w |}).

(** Executes and commits one writing statement. *)
Definition execute (s : Stmt) : M unit := λ w,
  match run_stmt s (db w) with
  | Some d => (inr (), {| db := d; committed := committed w ++ [s];
                          requests := requests w; logged := logged w;
                          local_amount := local_amount w |})
  | None => (inl IntegrityError, w)
  end.

(** [amount = v]. *)
Definition assign_amount (v : Qc) : M unit := λ w,
  (inr (), {| db := db w; committed := committed w; requests := requests w;
              logged := logged w; local_amount := Some v |}).

(** Reading the local [amount]. *)
Definition read_amount : M Qc := λ w,
  match local_amount w with
  | Some v => (inr v, w)
  | None => (inl UnboundLocalError, w)
  end.

(** [x / y] on floats. *)
Definition truediv (x y : Qc) : M Qc :=
  if decide (y = 0) then raise ZeroDivisionError else mret (x / y).

(** ** The ledger functions of [main.py] *)

Definition is_trade_processed (ord_id : string) : M bool := λ w,
  (inr (bool_decide (is_Some (processed_trades (db w) !! ord_id))), w).

Definition mark_trade_as_processed (ord_id symbol : string) (amount : Qc)
    (side : string) : M unit :=
  logger (Info "Marking trade as processed") ;;
  execute (InsertProcessedTrade ord_id symbol amount side).

Definition select_holding (symbol : string) : M (option Qc) := λ w,
  (inr (holdings (db w) !! symbol), w).

Definition update_holdings (symbol : string) (amount : Qc) (side : string) : M unit :=
  result ← select_holding symbol;
  match result with
  | Some current_amount =>
      let new_amount :=
        if decide (side = "buy") then current_amount + amount
        else current_amount - amount in
      execute (UpdateHolding new_amount symbol)
  | None => execute (InsertHolding symbol amount)
  end.

Definition get_holding_amount (symbol : string) : M Qc :=
  result ← select_holding symbol;
  mret (match result with Some a => a | None => 0 end).

(** ** The copy loop *)

Definition get_usdt_balance (exchange : Exchange) : M Qc :=
  usdt_balance ← send FetchBalance (fetch_balance exchange);
  logger (Info "Available USDT balance") ;;
  mret usdt_balance.

(** The body of the inner [try] (lines 133 to 156). *)
Definition mirror_trade (exchange : Exchange) (order_amount_usdt : Qc)
    (ord_id symbol side : string) (price : Qc) : M unit :=
  (if decide (side = "buy") then
     amount ← truediv order_amount_usdt price;
     assign_amount amount ;;
     logger (Info "Attempting to place new buy order") ;;
     new_order ← send (CreateMarketOrder symbol side amount)
                      (λ h, create_market_order exchange h symbol side amount);
     logger (Info "Placed new buy lead trade") ;;
     mark_trade_as_processed new_order symbol amount side ;;
     update_holdings symbol amount "buy"
   else if decide (side = "sell") then
     amount_to_sell ← get_holding_amount symbol;
     if decide (0 < amount_to_sell) then
       logger (Info "Attempting to sell all holdings") ;;
       send (SetMarginMode "spot_isolated" symbol)
            (λ h, set_margin_mode exchange h "spot_isolated" symbol) ;;
       logger (Info "Margin mode") ;;
       new_order ← send (CreateMarketOrder symbol side amount_to_sell)
                        (λ h, create_market_order exchange h symbol side amount_to_sell);
       logger (Info "Placed new sell lead trade") ;;
       mark_trade_as_processed new_order symbol amount_to_sell side ;;
       update_holdings symbol amount_to_sell "sell"
     else logger (Info "No holdings to sell")
   else mret ()) ;;
  amount ← read_amount;
  mark_trade_as_processed ord_id symbol amount side.

(** The three [except] clauses of the inner [try]. *)
Definition order_error (e : exn) : M unit :=
  match e with
  | InsufficientFunds => logger (Error "Insufficient funds to place order" e)
  | ExchangeError => logger (Error "Exchange error when placing order" e)
  | _ => logger (Error "Unexpected error placing new trade" e)
  end.

(** The body of [for trade in reversed(trades)] (lines 117 to 162). *)
Definition copy_trade (exchange : Exchange) (order_amount_usdt : Qc)
    (trade : Trade) : M unit :=
  let ord_id := trade_order trade in
  seen ← is_trade_processed ord_id;
  if (seen : bool) then mret ()
  else
    logger (Info "Processing trade") ;;
    let symbol := trade_symbol trade in
    let side := trade_side trade in
    quote ← (λ w, (market exchange symbol, w));
    if decide (quote ≠ "USDT") then logger (Warning "Skipping non-USDT market")
    else
      try_except
        (mirror_trade exchange order_amount_usdt ord_id symbol side (trade_price trade))
        order_error.

(** The three [except] clauses of the outer [try]. *)
Definition cycle_error (e : exn) : M unit :=
  match e with
  | NetworkError => logger (Error "Network error" e)
  | InsufficientFunds | ExchangeError => logger (Error "Exchange error" e)
  | _ => logger (Error "Unexpected error" e)
  end.

(** One turn of [while True] (lines 107 to 174), the sleeps left out. *)
Definition poll_cycle (exchange : Exchange) : M unit :=
  try_except
    (usdt_balance ← get_usdt_balance exchange;
     let order_amount_usdt := usdt_balance * Q2Qc (1 # 10) in
     send FetchAccounts (fetch_accounts exchange) ;;
     trades ← send (FetchMyTrades 10) (fetch_my_trades exchange);
     for_each (rev trades) (copy_trade exchange order_amount_usdt))
    cycle_error.

(** [fetch_and_copy_trades], stopped after [n] turns of its loop. *)
Fixpoint fetch_and_copy_trades (exchange : Exchange) (n : nat) : M unit :=
  match n with
  | O => mret ()
  | S n' => poll_cycle exchange ;; fetch_and_copy_trades exchange n'
  end.

(** ** Postconditions of a run *)

(** [wp m Q w]: the run of [m] from [w] ends in a result and a state that
    satisfy [Q]. *)
Definition wp {A : Type} (m : M A) (Q : exn + A → World → Prop) (w : World) : Prop :=
  Q (m w).1 (m w).2.

(** ** Traces of holding deltas *)

(** A delta is an amount and a side; [apply_deltas] is the trace of
    [update_holdings] calls for one symbol. *)
Definition apply_deltas (symbol : string) (ds : list (Qc * string)) : M unit :=
  for_each ds (λ d, update_holdings symbol d.1 d.2).

(** Sum of the amounts of the deltas of one side. *)
Definition total (side : string) (ds : list (Qc * string)) : Qc :=
  foldr (λ d acc, if decide (d.2 = side) then d.1 + acc else acc) 0 ds.

Definition buy_or_sell (d : Qc * string) : Prop := d.2 = "buy" ∨ d.2 = "sell".

(** ** Requests of an iteration *)

(** [sized q trade r]: the request [r] is one that the iteration for [trade]
    may send when the cycle's quote amount is [q]: the margin mode, or a
    market order for the trade's symbol and side which, for a buy, has the
    amount [q / price]. *)
Definition sized (q : Qc) (trade : Trade) (r : Request) : Prop :=
  match r with
  | SetMarginMode _ _ => True
  | CreateMarketOrder symbol side amount =>
      symbol = trade_symbol trade ∧ side = trade_side trade
      ∧ (side = "buy" → amount = q / trade_price trade)
  | _ => False
  end.

(** ** Scenarios *)

Definition lead_buy : Trade :=
  {| trade_order := "L1"; trade_symbol := "BTC/USDT"; trade_side := "buy";
     trade_price := Q2Qc 50000 |}.

(** The lead buy at another price. *)
Definition lead_buy_at (price : Qc) : Trade :=
  {| trade_order := "L1"; trade_symbol := "BTC/USDT"; trade_side := "buy";
     trade_price := price |}.

Definition lead_sell : Trade :=
  {| trade_order := "L2"; trade_symbol := "BTC/USDT"; trade_side := "sell";
     trade_price := Q2Qc 51000 |}.

Definition lead_buy_eth : Trade :=
  {| trade_order := "L3"; trade_symbol := "ETH/USDT"; trade_side := "buy";
     trade_price := Q2Qc 2500 |}.

(** An account with 1000 USDT free whose latest trades are [page]; every
    market is quoted in USDT; [margin] and [order] answer the two requests of
    the inner [try]. *)
Definition exchange_with (page : list Trade)
    (margin : list Request → exn + unit)
    (order : list Request → exn + string) : Exchange :=
  {| fetch_balance := λ _, inr (Q2Qc 1000);
     fetch_accounts := λ _, inr ();
     fetch_my_trades := λ _, inr page;
     market := λ _, inr "USDT";
     set_margin_mode := λ h _ _, margin h;
     create_market_order := λ h _ _ _, order h |}.

(** Accepts every request; the order placed after [n] earlier requests gets
    the id F followed by [n]. *)
Definition accepting (page : list Trade) : Exchange :=
  exchange_with page (λ _, inr ()) (λ h, inr ("F" +:+ pretty (length h))).

(** Rejects every order for lack of funds. *)
Definition out_of_funds (page : list Trade) : Exchange :=
  exchange_with page (λ _, inr ()) (λ _, inl InsufficientFunds).

(** Does not support [set_margin_mode]. *)
Definition no_margin_mode (page : list Trade) : Exchange :=
  exchange_with page (λ _, inl ExchangeError)
    (λ h, inr ("F" +:+ pretty (length h))).

(** Answers every order with the same id, F0. *)
Definition reusing_id (page : list Trade) : Exchange :=
  exchange_with page (λ _, inr ()) (λ _, inr "F0").

Definition btc_held : World :=
  {| db := {| processed_trades := ∅;
              holdings := {["BTC/USDT" := Q2Qc (2 # 1000); "ETH/USDT" := 1]} |};
     committed := []; requests := []; logged := []; local_amount := None |}.

(** The ledger after an order with id F0 was recorded. *)
Definition f0_recorded : World :=
  {| db := {| processed_trades :=
                {["F0" := {| pt_symbol := "ETH/USDT"; pt_amount := 1;
                             pt_side := "buy" |}]};
              holdings := {["ETH/USDT" := 1]} |};
     committed := []; requests := []; logged := []; local_amount := Some 1 |}.

(** ** The database file *)

(** The file [trades.db] before the tables are known to exist: each table is
    there with its rows, or missing. *)
Record Disk : Type := {
  disk_processed_trades : option (gmap string ProcessedTrade);
  disk_holdings : option (gmap string Qc)
}.

(** No file yet: [sqlite3.connect] creates it empty. *)
Definition new_file : Disk :=
  {| disk_processed_trades := None; disk_holdings := None |}.

(** [CREATE TABLE IF NOT EXISTS]. *)
Definition create_table_if_not_exists {A : Type}
    (table : option (gmap string A)) : option (gmap string A) :=
  match table with
  | Some rows => Some rows
  | None => Some ∅
  end.

Definition init_db (d : Disk) : Disk :=
  {| disk_processed_trades := create_table_if_not_exists (disk_processed_trades d);
     disk_holdings := create_table_if_not_exists (disk_holdings d) |}.

(** The tables the ledger functions work on; [None] when one is missing and
    their statements would raise [sqlite3.OperationalError]. *)
Definition tables (d : Disk) : option DB :=
  match disk_processed_trades d, disk_holdings d with
  | Some processed, Some held =>
      Some {| processed_trades := processed; holdings := held |}
  | _, _ => None
  end.

(** The file as the ledger functions leave it. *)
Definition on_disk (d : DB) : Disk :=
  {| disk_processed_trades := Some (processed_trades d);
     disk_holdings := Some (holdings d) |}.

(** The state in which a new process starts on the file an earlier process
    left: [init_db] runs first, and the local variables of the old process,
    [amount] among them, are gone.  The requests and the log are kept as the
    history of the account and of the log file. *)
Definition restart (w : World) : option World :=
  match tables (init_db (on_disk (db w))) with
  | Some d => Some {| db := d; committed := committed w; requests := requests w;
                      logged := logged w; local_amount := None |}
  | None => None
  end.

(** ** Holdings at 0 or above *)

Definition nonnegative (held : gmap string Qc) : Prop :=
  ∀ symbol amount, held !! symbol = Some amount → 0 ≤ amount.

(** ** Counting requests *)

Definition is_fetch_balance (r : Request) : bool :=
  match r with FetchBalance => true | _ => false end.

(** Number of balance requests in a list of requests. *)
Definition balance_fetches (rs : list Request) : nat :=
  length (List.filter is_fetch_balance rs).

Arguments balance_fetches : simpl never.

(** A trade with a side the loop has no branch for. *)
Definition lead_transfer : Trade :=
  {| trade_order := "L4"; trade_symbol := "BTC/USDT"; trade_side := "transfer";
     trade_price := Q2Qc 50000 |}.

(** A trade on a market quoted in BTC. *)
Definition lead_buy_eth_btc : Trade :=
  {| trade_order := "L5"; trade_symbol := "ETH/BTC"; trade_side := "buy";
     trade_price := Q2Qc (5 # 100) |}.

(** The quote currency is what follows the slash; symbols without a slash are
    not listed. *)
Definition quote_of (symbol : string) : exn + string :=
  if decide (symbol = "ETH/BTC") then inr "BTC"
  else if decide (symbol = "DOGE") then inl ExchangeError
  else inr "USDT".

(** As [accepting], with the markets of [quote_of]. *)
Definition accepting_markets (page : list Trade) : Exchange :=
  {| fetch_balance := λ _, inr (Q2Qc 1000);
     fetch_accounts := λ _, inr ();
     fetch_my_trades := λ _, inr page;
     market := quote_of;
     set_margin_mode := λ _ _ _, inr ();
     create_market_order := λ h _ _ _, inr ("F" +:+ pretty (length h)) |}.

(** A trade on a symbol the exchange does not list. *)
Definition lead_buy_unlisted : Trade :=
  {| trade_order := "L6"; trade_symbol := "DOGE"; trade_side := "buy";
     trade_price := 1 |}.

(** An account whose requests fail as told: [balance], [accounts] and [page]
    answer the three requests that open a cycle. *)
Definition opening_with (balance : exn + Qc) (accounts : exn + unit)
    (page : exn + list Trade) : Exchange :=
  {| fetch_balance := λ _, balance;
     fetch_accounts := λ _, accounts;
     fetch_my_trades := λ _, page;
     market := λ _, inr "USDT";
     set_margin_mode := λ _ _ _, inr ();
     create_market_order := λ h _ _ _, inr ("F" +:+ pretty (length h)) |}.

(** * Properties *)

(** ** Running the monad *)

Lemma bind_run {A B : Type} (m : M A) (f : A → M B) w :
  (m ≫= f) w = match m w with
               | (inl e, w') => (inl e, w')
               | (inr a, w') => f a w'
               end.
Proof. reflexivity. Qed.

(** ** The ledger functions *)

Lemma is_trade_processed_spec ord_id w :
  is_trade_processed ord_id w
  = (inr (bool_decide (is_Some (processed_trades (db w) !! ord_id))), w).
Proof. reflexivity. Qed.

Lemma update_holdings_present symbol amount side w current_amount :
  holdings (db w) !! symbol = Some current_amount →
  update_holdings symbol amount side w
  = execute (UpdateHolding (if decide (side = "buy") then current_amount + amount
                            else current_amount - amount) symbol) w.
Proof. intros Hrow. unfold update_holdings, select_holding, mbind, M_bind. by rewrite Hrow. Qed.

Lemma update_holdings_absent symbol amount side w :
  holdings (db w) !! symbol = None →
  update_holdings symbol amount side w = execute (InsertHolding symbol amount) w.
Proof. intros Hrow. unfold update_holdings, select_holding, mbind, M_bind. by rewrite Hrow. Qed.

(** [update_holdings] never raises, and what it stores is known. *)
Lemma update_holdings_stores symbol amount side w :
  (update_holdings symbol amount side w).1 = inr ()
  ∧ holdings (db (update_holdings symbol amount side w).2) !! symbol
    = Some (match holdings (db w) !! symbol with
            | Some current_amount =>
                if decide (side = "buy") then current_amount + amount
                else current_amount - amount
            | None => amount
            end).
Proof.
  destruct (holdings (db w) !! symbol) as [c|] eqn:Hrow.
  - rewrite (update_holdings_present _ _ _ _ c Hrow). unfold execute. cbn.
    split; [done|]. rewrite lookup_alter_eq, Hrow. done.
  - rewrite (update_holdings_absent _ _ _ _ Hrow). unfold execute. cbn.
    rewrite Hrow. cbn. split; [done|]. by rewrite lookup_insert_eq.
Qed.

(** C10: [update_holdings symbol amount side] never raises; it leaves every
    other symbol's holding, the whole [processed_trades] table, the requests,
    the log and the local [amount] as they were; it commits exactly one
    statement, an UPDATE or an INSERT on [holdings], so no row is ever
    deleted; and a sell of the full holding leaves the row in place with
    amount 0. *)
Theorem update_holdings_frame symbol amount side w :
  let w' := (update_holdings symbol amount side w).2 in
  (update_holdings symbol amount side w).1 = inr ()
  ∧ (∀ other, other ≠ symbol →
       holdings (db w') !! other = holdings (db w) !! other)
  ∧ processed_trades (db w') = processed_trades (db w)
  ∧ (∀ s, is_Some (holdings (db w) !! s) → is_Some (holdings (db w') !! s))
  ∧ (∃ s, committed w' = committed w ++ [s] ∧ writes_holdings s = true
          ∧ ∀ d d', run_stmt s d = Some d' → dom (holdings d) ⊆ dom (holdings d'))
  ∧ (requests w' = requests w ∧ logged w' = logged w
     ∧ local_amount w' = local_amount w)
  ∧ (holdings (db w) !! symbol = Some amount → side = "sell" →
       holdings (db w') !! symbol = Some 0).
Proof.
  cbn zeta.
  destruct (holdings (db w) !! symbol) as [c|] eqn:Hrow.
  - rewrite (update_holdings_present _ _ _ _ c Hrow). unfold execute. cbn.
    repeat split; try done.
    + intros other Hne. by rewrite lookup_alter_ne.
    + intros s Hs. destruct (decide (s = symbol)) as [->|Hne].
      * rewrite lookup_alter_eq, Hrow. by eexists.
      * by rewrite lookup_alter_ne.
    + eexists. repeat split; try done.
      intros d d' Hrun. cbn in Hrun. injection Hrun as <-. cbn.
      by rewrite dom_alter.
    + intros Hfull ->. rewrite lookup_alter_eq, Hrow. cbn.
      injection Hfull as ->. case_decide; [done|]. f_equal. ring.
  - rewrite (update_holdings_absent _ _ _ _ Hrow). unfold execute. cbn.
    rewrite Hrow. cbn. repeat split; try done.
    + intros other Hne. by rewrite lookup_insert_ne.
    + intros s Hs. destruct (decide (s = symbol)) as [->|Hne].
      * rewrite lookup_insert_eq. by eexists.
      * by rewrite lookup_insert_ne.
    + eexists. repeat split; try done.
      intros d d' Hrun. cbn in Hrun.
      destruct (holdings d !! symbol); [done|]. injection Hrun as <-. cbn.
      rewrite dom_insert. set_solver.
Qed.


Lemma update_holdings_frame_witness :
  holdings (db (update_holdings "BTC/USDT" (Q2Qc (2 # 1000)) "sell" btc_held).2)
    !! "BTC/USDT" = Some 0
  ∧ holdings (db (update_holdings "BTC/USDT" (Q2Qc (2 # 1000)) "sell" btc_held).2)
    !! "ETH/USDT" = Some 1.
Proof.
  destruct (update_holdings_frame "BTC/USDT" (Q2Qc (2 # 1000)) "sell" btc_held)
    as (_ & Hother & _ & _ & _ & _ & Hzero).
  split.
  - apply Hzero; reflexivity.
  - rewrite Hother; [reflexivity | discriminate].
Defined.

(** ** Sequences of holding deltas *)

Lemma total_cons side a sd ds :
  total side ((a, sd) :: ds)
  = if decide (sd = side) then a + total side ds else total side ds.
Proof. reflexivity. Qed.

(** Once the row exists, every delta is added or subtracted by its side. *)
Lemma apply_deltas_present symbol ds : ∀ w current_amount,
  Forall buy_or_sell ds →
  holdings (db w) !! symbol = Some current_amount →
  (apply_deltas symbol ds w).1 = inr ()
  ∧ holdings (db (apply_deltas symbol ds w).2) !! symbol
    = Some (current_amount + total "buy" ds - total "sell" ds).
Proof.
  induction ds as [|[a sd] ds IH]; intros w c Hsides Hrow.
  - cbn. split; [done|]. rewrite Hrow. f_equal. ring.
  - inversion Hsides as [|? ? Hsd Hrest]; subst.
    destruct (update_holdings_stores symbol a sd w) as [Hok Hnew].
    rewrite Hrow in Hnew.
    unfold apply_deltas in *. cbn [for_each]. rewrite bind_run. cbn [fst snd].
    destruct (update_holdings symbol a sd w) as [[e|[]] w1] eqn:Hstep; [done|].
    cbn in Hnew.
    destruct (IH w1 _ Hrest Hnew) as [IHok IHrow]. split; [done|].
    rewrite IHrow. f_equal. rewrite !total_cons.
    destruct Hsd as [Hsd|Hsd]; cbn in Hsd; subst sd;
      repeat case_decide; try done; ring.
Qed.

(** What the code computes from a ledger without a row for the symbol: the
    first delta is stored as it is, whatever its side, and the later ones are
    added or subtracted. *)
Lemma apply_deltas_absent symbol a sd ds w :
  Forall buy_or_sell ds →
  holdings (db w) !! symbol = None →
  (apply_deltas symbol ((a, sd) :: ds) w).1 = inr ()
  ∧ (get_holding_amount symbol (apply_deltas symbol ((a, sd) :: ds) w).2).1
    = inr (a + total "buy" ds - total "sell" ds).
Proof.
  intros Hsides Hrow.
  destruct (update_holdings_stores symbol a sd w) as [Hok Hnew].
  rewrite Hrow in Hnew.
  unfold apply_deltas in *. cbn [for_each]. rewrite bind_run. cbn [fst snd].
  destruct (update_holdings symbol a sd w) as [[e|[]] w1] eqn:Hstep; [done|].
  cbn in Hnew.
  destruct (apply_deltas_present symbol ds w1 a Hsides Hnew) as [IHok IHrow].
  split; [done|].
  unfold apply_deltas in IHrow.
  unfold get_holding_amount, select_holding, mbind, M_bind, mret, M_ret. cbn.
  by rewrite IHrow.
Qed.

(** On the traces that start with a buy, the holding is the sum of the buys
    minus the sum of the sells. *)
Lemma holding_is_buys_minus_sells symbol a ds w :
  Forall buy_or_sell ds →
  holdings (db w) !! symbol = None →
  (get_holding_amount symbol (apply_deltas symbol ((a, "buy") :: ds) w).2).1
  = inr (total "buy" ((a, "buy") :: ds) - total "sell" ((a, "buy") :: ds)).
Proof.
  intros Hsides Hrow.
  destruct (apply_deltas_absent symbol a "buy" ds w Hsides Hrow) as [_ ->].
  reflexivity.
Qed.


(** ** Trades already processed *)

(** C1: a trade whose order id is in [processed_trades] is skipped at once.
    Whatever the exchange would answer, the iteration returns normally and
    leaves the whole state as it was: no request is sent (so no order), no
    statement is committed, the tables are unchanged, nothing is logged and
    the local [amount] is not assigned (no sizing took place). *)
Theorem processed_trade_is_skipped exchange order_amount_usdt trade w :
  is_trade_processed (trade_order trade) w = (inr true, w) →
  copy_trade exchange order_amount_usdt trade w = (inr (), w).
Proof.
  intros Hseen. unfold copy_trade. rewrite bind_run. by rewrite Hseen.
Qed.

Lemma processed_trade_is_skipped_witness :
  let w := (poll_cycle (accepting [lead_buy]) initial_world).2 in
  copy_trade (accepting [lead_buy]) (Q2Qc 100) lead_buy w = (inr (), w).
Proof.
  apply (processed_trade_is_skipped (accepting [lead_buy]) (Q2Qc 100) lead_buy).
  vm_compute. reflexivity.
Defined.

(** ** Reasoning about one run *)

Lemma wp_bind {A B : Type} (m : M A) (f : A → M B) Q w :
  wp m (λ r w', match r with
                | inl e => Q (inl e) w'
                | inr a => wp (f a) Q w'
                end) w →
  wp (m ≫= f) Q w.
Proof. unfold wp. rewrite bind_run. by destruct (m w) as [[e|a] w']. Qed.

Lemma wp_try_except {A : Type} (body : M A) (handler : exn → M A) Q w :
  wp body (λ r w', match r with
                   | inl e => wp (handler e) Q w'
                   | inr a => Q (inr a) w'
                   end) w →
  wp (try_except body handler) Q w.
Proof. unfold wp, try_except. by destruct (body w) as [[e|a] w']. Qed.

Lemma wp_mret {A : Type} (a : A) Q w : Q (inr a) w → wp (mret a) Q w.
Proof. done. Qed.

Lemma wp_raise {A : Type} (e : exn) (Q : exn + A → World → Prop) w :
  Q (inl e) w → wp (raise e) Q w.
Proof. done. Qed.

Lemma wp_answer {A : Type} (x : exn + A) Q w : Q x w → wp (λ w', (x, w')) Q w.
Proof. done. Qed.

Lemma wp_logger l Q w :
  Q (inr ()) {| db := db w; committed := committed w; requests := requests w;
                logged := logged w ++ [l]; local_amount := local_amount w |} →
  wp (logger l) Q w.
Proof. done. Qed.

Lemma wp_send {A : Type} r (answer : list Request → exn + A) Q w :
  Q (answer (requests w))
    {| db := db w; committed := committed w; requests := requests w ++ [r];
       logged := logged w; local_amount := local_amount w |} →
  wp (send r answer) Q w.
Proof. done. Qed.

Lemma wp_execute s Q w :
  match run_stmt s (db w) with
  | Some d => Q (inr ()) {| db := d; committed := committed w ++ [s];
                            requests := requests w; logged := logged w;
                            local_amount := local_amount w |}
  | None => Q (inl IntegrityError) w
  end →
  wp (execute s) Q w.
Proof. unfold wp, execute. by destruct (run_stmt s (db w)). Qed.

Lemma wp_assign_amount v Q w :
  Q (inr ()) {| db := db w; committed := committed w; requests := requests w;
                logged := logged w; local_amount := Some v |} →
  wp (assign_amount v) Q w.
Proof. done. Qed.

Lemma wp_read_amount Q w :
  match local_amount w with
  | Some v => Q (inr v) w
  | None => Q (inl UnboundLocalError) w
  end →
  wp read_amount Q w.
Proof. unfold wp, read_amount. by destruct (local_amount w). Qed.

Lemma wp_select_holding symbol Q w :
  Q (inr (holdings (db w) !! symbol)) w → wp (select_holding symbol) Q w.
Proof. done. Qed.

Lemma wp_is_trade_processed ord_id Q w :
  Q (inr (bool_decide (is_Some (processed_trades (db w) !! ord_id)))) w →
  wp (is_trade_processed ord_id) Q w.
Proof. done. Qed.

(** The scrutinee tested first in a nest of matches. *)
Ltac first_test x :=
  lazymatch x with
  | context [match ?y with _ => _ end] => first_test y
  | _ => x
  end.

Ltac world :=
  cbn [fst snd db committed requests logged local_amount processed_trades
       holdings].

(** Uses what the hypotheses say about the ledger and the exchange. *)
Ltac known :=
  repeat match goal with
  | H : (_ !! _) = _ |- _ => progress rewrite H
  | H : local_amount _ = _ |- _ => progress rewrite H
  | H : bool_decide _ = _ |- _ => progress rewrite H
  | H : market _ _ = _ |- _ => progress rewrite H
  | H : set_margin_mode _ _ _ _ = _ |- _ => progress rewrite H
  | H : create_market_order _ _ _ _ _ = _ |- _ => progress rewrite H
  | H : trade_side _ = _ |- _ => progress rewrite H
  | H : trade_price _ = _ |- _ => progress rewrite H
  end.

(** One step of the program, in the order it runs. *)
Ltac wp_step :=
  try (progress known; world);
  lazymatch goal with
  | |- wp (mbind _ _) _ _ => apply wp_bind
  | |- wp (try_except _ _) _ _ => apply wp_try_except
  | |- wp (if decide ?P then _ else _) _ _ => destruct (decide P); try done
  | |- wp (if ?b then _ else _) _ _ => destruct b eqn:?; try congruence
  | |- wp (match ?x with _ => _ end) _ _ => destruct x eqn:?; try congruence
  | |- wp (mret _) _ _ => apply wp_mret; world
  | |- wp (raise _) _ _ => apply wp_raise; world
  | |- wp (logger _) _ _ => apply wp_logger; world
  | |- wp (send _ _) _ _ => apply wp_send; world
  | |- wp (assign_amount _) _ _ => apply wp_assign_amount; world
  | |- wp read_amount _ _ => apply wp_read_amount; world
  | |- wp (select_holding _) _ _ => apply wp_select_holding; world
  | |- wp (is_trade_processed _) _ _ => apply wp_is_trade_processed; world
  | |- wp (execute _) _ _ => apply wp_execute; cbn [run_stmt]; world
  | |- wp (truediv _ _) _ _ => unfold truediv at 1
  | |- wp (mark_trade_as_processed _ _ _ _) _ _ =>
      unfold mark_trade_as_processed at 1
  | |- wp (update_holdings _ _ _) _ _ => unfold update_holdings at 1
  | |- wp (get_holding_amount _) _ _ => unfold get_holding_amount at 1
  | |- wp (order_error ?e) _ _ => unfold order_error at 1
  | |- wp (mirror_trade _ _ _ _ _ _) _ _ => unfold mirror_trade at 1
  | |- wp (copy_trade _ _ _) _ _ => unfold copy_trade at 1
  | |- wp (get_usdt_balance _) _ _ => unfold get_usdt_balance at 1
  | |- wp (cycle_error ?e) _ _ => unfold cycle_error at 1
  | |- wp (poll_cycle _) _ _ => unfold poll_cycle at 1
  | |- wp (λ _, (_, _)) _ _ => apply wp_answer; world
  | |- match ?x with _ => _ end =>
      let y := first_test x in destruct y eqn:?; try congruence; world
  end.

Ltac wp_run := repeat wp_step; known; cbv beta; world.

(** States a goal about [(m w).1] and [(m w).2] as a [wp]. *)
Ltac as_wp m w :=
  pattern (m w).2; pattern (m w).1;
  lazymatch goal with
  | |- (λ r, (λ w', @?Q r w') ?s) ?v => change (wp m Q w)
  end.

(** ** One iteration of the copy loop *)

Lemma app_self_inv {A : Type} (l k : list A) : l = l ++ k → k = [].
Proof. intros H. apply (app_inv_head l). by rewrite app_nil_r. Qed.

Lemma holding_writes_app tr1 tr2 :
  holding_writes (tr1 ++ tr2) = (holding_writes tr1 + holding_writes tr2)%nat.
Proof. unfold holding_writes. by rewrite List.filter_app, List.length_app. Qed.

(** From an equation between the requests of a run and
    [requests w ++ pre ++ [r]], finds [pre] and [r]. *)
Ltac sent H pre :=
  rewrite <- ?app_assoc in H;
  first [ apply app_inv_head in H | apply app_self_inv in H ];
  repeat (destruct pre as [|? pre]; simplify_eq/=);
  rewrite ?app_nil_r in *.

(** When the order of an iteration is answered with an id that is not in
    [processed_trades] yet, exactly one write to [holdings] is committed: the
    holding grows by the amount bought, or shrinks by the amount sold. *)
Lemma recorded_order_one_delta exchange order_amount_usdt trade w
    pre symbol side amount new_order :
  let w' := (copy_trade exchange order_amount_usdt trade w).2 in
  requests w' = requests w ++ pre ++ [CreateMarketOrder symbol side amount] →
  create_market_order exchange (requests w ++ pre) symbol side amount
    = inr new_order →
  processed_trades (db w) !! new_order = None →
  holding_writes (committed w') = S (holding_writes (committed w))
  ∧ holdings (db w') !! symbol
    = Some (if decide (side = "buy")
            then default 0 (holdings (db w) !! symbol) + amount
            else default 0 (holdings (db w) !! symbol) - amount).
Proof.
  cbn zeta. as_wp (copy_trade exchange order_amount_usdt trade) w.
  wp_run.
  all: intros Hsent Hplaced Hfresh; sent Hsent pre; try congruence.
  all: rewrite ?holding_writes_app, ?lookup_alter_eq, ?lookup_insert_eq.
  all: repeat match goal with H : holdings _ !! _ = _ |- _ => rewrite H end.
  all: repeat case_decide; try congruence.
  all: split; [unfold holding_writes; cbn; lia | cbn; f_equal; ring].
Qed.

(** A failed order commits nothing. *)
Lemma failed_order_commits_nothing exchange order_amount_usdt trade w
    pre symbol side amount e :
  let w1 := (copy_trade exchange order_amount_usdt trade w).2 in
  requests w1 = requests w ++ pre ++ [CreateMarketOrder symbol side amount] →
  create_market_order exchange (requests w ++ pre) symbol side amount = inl e →
  db w1 = db w ∧ committed w1 = committed w.
Proof.
  cbn zeta. as_wp (copy_trade exchange order_amount_usdt trade) w.
  wp_run.
  all: intros Hsent Hfail; sent Hsent pre; try congruence.
  all: by split.
Qed.

(** C3: when the order of an eligible trade is answered with an error, the
    iteration commits nothing: the tables are as before, so neither an order
    id nor the lead trade's id is marked and no holding is written, and the
    trade is still unprocessed for the next cycle.  When a later iteration on
    the same trade places its order, and the order comes back with an id not
    yet in [processed_trades], exactly one write to [holdings] is committed,
    moving the holding by the amount of that order. *)
Theorem failed_order_leaves_ledger exchange order_amount_usdt trade w
    pre symbol side amount e :
  is_trade_processed (trade_order trade) w = (inr false, w) →
  market exchange (trade_symbol trade) = inr "USDT" →
  let w1 := (copy_trade exchange order_amount_usdt trade w).2 in
  requests w1 = requests w ++ pre ++ [CreateMarketOrder symbol side amount] →
  create_market_order exchange (requests w ++ pre) symbol side amount = inl e →
  (db w1 = db w ∧ committed w1 = committed w
   ∧ is_trade_processed (trade_order trade) w1 = (inr false, w1))
  ∧ ∀ exchange' order_amount_usdt' pre' amount' new_order,
      let w2 := (copy_trade exchange' order_amount_usdt' trade w1).2 in
      requests w2
        = requests w1 ++ pre' ++ [CreateMarketOrder symbol side amount'] →
      create_market_order exchange' (requests w1 ++ pre') symbol side amount'
        = inr new_order →
      processed_trades (db w1) !! new_order = None →
      holding_writes (committed w2) = S (holding_writes (committed w1))
      ∧ holdings (db w2) !! symbol
        = Some (if decide (side = "buy")
                then default 0 (holdings (db w) !! symbol) + amount'
                else default 0 (holdings (db w) !! symbol) - amount').
Proof.
  intros Hnew Hquote w1 Hsent Hfail. subst w1.
  destruct (failed_order_commits_nothing exchange order_amount_usdt trade w
              pre symbol side amount e Hsent Hfail) as [Hdb Htr].
  split.
  - repeat split; [done..|].
    rewrite !is_trade_processed_spec in *. rewrite Hdb. congruence.
  - intros exchange' q' pre' amount' new_order w2 Hsent' Hplaced Hfresh.
    rewrite <- Hdb.
    by apply (recorded_order_one_delta exchange' q' trade _ pre' symbol side
                amount' new_order).
Qed.

Lemma failed_order_leaves_ledger_witness :
  let w1 := (copy_trade (out_of_funds [lead_buy]) (Q2Qc 100) lead_buy
               initial_world).2 in
  let w2 := (copy_trade (accepting [lead_buy]) (Q2Qc 100) lead_buy w1).2 in
  (db w1 = db initial_world ∧ committed w1 = []
   ∧ is_trade_processed "L1" w1 = (inr false, w1))
  ∧ holding_writes (committed w2) = 1%nat
  ∧ holdings (db w2) !! "BTC/USDT" = Some (0 + Q2Qc 100 / Q2Qc 50000).
Proof.
  destruct (failed_order_leaves_ledger (out_of_funds [lead_buy]) (Q2Qc 100)
              lead_buy initial_world [] "BTC/USDT" "buy"
              (Q2Qc 100 / Q2Qc 50000) InsufficientFunds)
    as [Hsame Hretry]; [reflexivity..|].
  split; [exact Hsame|].
  apply (Hretry (accepting [lead_buy]) (Q2Qc 100) [] (Q2Qc 100 / Q2Qc 50000) "F1");
    reflexivity.
Defined.

(** ** Order ids that are already in the ledger *)

(** C5, as the code has it: [mark_trade_as_processed] with an id that is
    already in [processed_trades] raises [IntegrityError] and commits nothing.
    The copy loop has no clause for it: when the order of an iteration comes
    back with such an id, the error goes to the last [except] clause and is
    logged as an unexpected error; the rest of the recording is skipped, so
    the tables are as before the iteration: no holding is written and the lead
    trade's id is not marked. *)
Theorem duplicate_order_id_is_an_error ord_id w :
  is_trade_processed ord_id w = (inr true, w) →
  (∀ symbol amount side,
     let r := mark_trade_as_processed ord_id symbol amount side w in
     r.1 = inl IntegrityError ∧ db r.2 = db w ∧ committed r.2 = committed w)
  ∧ ∀ exchange order_amount_usdt trade pre symbol side amount,
      let r := copy_trade exchange order_amount_usdt trade w in
      requests r.2 = requests w ++ pre ++ [CreateMarketOrder symbol side amount] →
      create_market_order exchange (requests w ++ pre) symbol side amount
        = inr ord_id →
      r.1 = inr ()
      ∧ list.last (logged r.2)
        = Some (Error "Unexpected error placing new trade" IntegrityError)
      ∧ db r.2 = db w ∧ committed r.2 = committed w.
Proof.
  intros Hseen. rewrite is_trade_processed_spec in Hseen.
  assert (is_Some (processed_trades (db w) !! ord_id)) as [row Hrow].
  { apply (bool_decide_eq_true_1 _). congruence. }
  clear Hseen. split.
  - intros symbol amount side. cbn zeta.
    as_wp (mark_trade_as_processed ord_id symbol amount side) w.
    by wp_run.
  - intros exchange q trade pre symbol side amount. cbn zeta.
    as_wp (copy_trade exchange q trade) w.
    wp_run.
    all: intros Hsent Hplaced; sent Hsent pre; try congruence.
    all: rewrite ?last_snoc; done.
Qed.

Lemma duplicate_order_id_is_an_error_witness :
  let r := copy_trade (reusing_id [lead_buy]) (Q2Qc 100) lead_buy f0_recorded in
  (mark_trade_as_processed "F0" "BTC/USDT" 1 "buy" f0_recorded).1
    = inl IntegrityError
  ∧ r.1 = inr ()
  ∧ list.last (logged r.2)
    = Some (Error "Unexpected error placing new trade" IntegrityError)
  ∧ db r.2 = db f0_recorded ∧ committed r.2 = committed f0_recorded.
Proof.
  destruct (duplicate_order_id_is_an_error "F0" f0_recorded) as [Hmark Hloop];
    [reflexivity|].
  split; [apply Hmark|].
  apply (Hloop (reusing_id [lead_buy]) (Q2Qc 100) lead_buy [] "BTC/USDT" "buy"
           (Q2Qc 100 / Q2Qc 50000)); reflexivity.
Defined.

(** C5 fails as stated.  The ledger already has the id F0 and the exchange
    answers the mirrored buy with F0: the order is placed, the duplicate key is
    logged as an error, no holding is written for the amount bought and the
    lead trade L1 is left unmarked, so the recording did not take effect. *)
Lemma duplicate_order_id_drops_recording :
  let r := copy_trade (reusing_id [lead_buy]) (Q2Qc 100) lead_buy f0_recorded in
  is_trade_processed "F0" f0_recorded = (inr true, f0_recorded)
  ∧ orders (requests r.2)
    = [CreateMarketOrder "BTC/USDT" "buy" (Q2Qc 100 / Q2Qc 50000)]
  ∧ list.last (logged r.2)
    = Some (Error "Unexpected error placing new trade" IntegrityError)
  ∧ holding_writes (committed r.2) = 0%nat
  ∧ (get_holding_amount "BTC/USDT" r.2).1 = inr 0
  ∧ is_trade_processed "L1" r.2 = (inr false, r.2).
Proof. cbn zeta. repeat split; reflexivity. Qed.

(** ** Marking the lead trade *)

Lemma eligible_unprocessed ord_id w :
  is_trade_processed ord_id w = (inr false, w) →
  bool_decide (is_Some (processed_trades (db w) !! ord_id)) = false.
Proof. rewrite is_trade_processed_spec. congruence. Qed.

Lemma holding_amount_default symbol w held :
  get_holding_amount symbol w = (inr held, w) →
  default 0 (holdings (db w) !! symbol) = held.
Proof.
  unfold get_holding_amount, select_holding. rewrite bind_run.
  unfold mret, M_ret.
  by destruct (holdings (db w) !! symbol); intros [= <-].
Qed.

(** C4 at the inputs where the code departs from it.  The last statement of
    the inner [try] reads the local [amount], which only the buy branch
    assigns.  For a sell handled while [amount] is still unbound, with nothing
    held, no request is sent and nothing can fail at the exchange, yet reading
    [amount] raises [UnboundLocalError]: it is logged as an unexpected error
    and the lead trade's id is not marked. *)
Theorem sell_before_any_buy_is_not_marked exchange order_amount_usdt trade w :
  is_trade_processed (trade_order trade) w = (inr false, w) →
  market exchange (trade_symbol trade) = inr "USDT" →
  trade_side trade = "sell" →
  get_holding_amount (trade_symbol trade) w = (inr 0, w) →
  local_amount w = None →
  let r := copy_trade exchange order_amount_usdt trade w in
  r.1 = inr ()
  ∧ requests r.2 = requests w
  ∧ logged r.2 = logged w ++ [Info "Processing trade"; Info "No holdings to sell";
                              Error "Unexpected error placing new trade"
                                UnboundLocalError]
  ∧ db r.2 = db w ∧ committed r.2 = committed w
  ∧ is_trade_processed (trade_order trade) r.2 = (inr false, r.2).
Proof.
  intros Hnew%eligible_unprocessed Hquote Hside Hzero%holding_amount_default
    Hunbound.
  cbn zeta. rewrite !is_trade_processed_spec.
  as_wp (copy_trade exchange order_amount_usdt trade) w.
  wp_run.
  all: try by (destruct (holdings (db w) !! trade_symbol trade);
               cbn in Hzero; subst; exfalso;
               (eapply Qclt_not_eq; [eassumption | reflexivity])).
  all: repeat match goal with H : bool_decide _ = _ |- _ => rewrite H end.
  all: by rewrite <- ?app_assoc.
Qed.

Lemma sell_before_any_buy_is_not_marked_witness :
  let r := copy_trade (accepting [lead_sell]) (Q2Qc 100) lead_sell initial_world in
  r.1 = inr ()
  ∧ requests r.2 = []
  ∧ logged r.2 = [Info "Processing trade"; Info "No holdings to sell";
                  Error "Unexpected error placing new trade" UnboundLocalError]
  ∧ db r.2 = empty_db ∧ committed r.2 = []
  ∧ is_trade_processed "L2" r.2 = (inr false, r.2).
Proof.
  apply (sell_before_any_buy_is_not_marked (accepting [lead_sell]) (Q2Qc 100)
           lead_sell initial_world); reflexivity.
Defined.

(** Once some buy has been sized, [amount] is bound and the same sell is
    marked, with the amount of that earlier buy in its row. *)
Lemma sell_after_a_buy_is_marked exchange order_amount_usdt trade w bought :
  is_trade_processed (trade_order trade) w = (inr false, w) →
  market exchange (trade_symbol trade) = inr "USDT" →
  trade_side trade = "sell" →
  get_holding_amount (trade_symbol trade) w = (inr 0, w) →
  local_amount w = Some bought →
  let r := copy_trade exchange order_amount_usdt trade w in
  requests r.2 = requests w
  ∧ processed_trades (db r.2) !! trade_order trade
    = Some {| pt_symbol := trade_symbol trade; pt_amount := bought;
              pt_side := "sell" |}.
Proof.
  intros Hnew%eligible_unprocessed Hquote Hside Hzero%holding_amount_default
    Hbound.
  cbn zeta. as_wp (copy_trade exchange order_amount_usdt trade) w. wp_run.
  all: try by (destruct (holdings (db w) !! trade_symbol trade);
               cbn in Hzero; subst; exfalso;
               (eapply Qclt_not_eq; [eassumption | reflexivity])).
  all: try by (exfalso; apply bool_decide_eq_false_1 in Hnew; apply Hnew;
               eexists).
  all: by rewrite lookup_insert_eq.
Qed.

(** ** Mirroring a sell *)

(** C6, as the code has it.  For an eligible lead sell: when something is held
    and the exchange accepts the margin mode, the requests of the iteration
    are that one and one market sell for the whole holding; when the exchange
    refuses the margin mode, no order is sent and nothing is committed; when
    nothing is held, no request is sent and [holdings] is not written. *)
Theorem sell_liquidates_whole_holding exchange order_amount_usdt trade w held :
  is_trade_processed (trade_order trade) w = (inr false, w) →
  market exchange (trade_symbol trade) = inr "USDT" →
  trade_side trade = "sell" →
  get_holding_amount (trade_symbol trade) w = (inr held, w) →
  let r := copy_trade exchange order_amount_usdt trade w in
  let margin := SetMarginMode "spot_isolated" (trade_symbol trade) in
  (0 < held →
   set_margin_mode exchange (requests w) "spot_isolated" (trade_symbol trade)
     = inr () →
   requests r.2
   = requests w ++ [margin; CreateMarketOrder (trade_symbol trade) "sell" held])
  ∧ (0 < held →
     ∀ e, set_margin_mode exchange (requests w) "spot_isolated"
            (trade_symbol trade) = inl e →
          requests r.2 = requests w ++ [margin]
          ∧ db r.2 = db w ∧ committed r.2 = committed w)
  ∧ (held = 0 →
     requests r.2 = requests w
     ∧ holdings (db r.2) = holdings (db w)
     ∧ holding_writes (committed r.2) = holding_writes (committed w)).
Proof.
  intros Hnew%eligible_unprocessed Hquote Hside Hheld%holding_amount_default.
  cbn zeta.
  destruct (holdings (db w) !! trade_symbol trade) as [h|] eqn:Hrow;
    cbn in Hheld; subst held.
  all: split; [|split].
  all: try (intros Hpos Hmargin); try (intros Hpos e Hmargin); try intros Hzero.
  all: try by destruct (Qclt_not_eq _ _ Hpos).
  all: as_wp (copy_trade exchange order_amount_usdt trade) w; wp_run.
  all: rewrite <- ?app_assoc, ?holding_writes_app; try done.
  all: try by (exfalso; eapply Qclt_not_eq; [eassumption | done]).
Qed.

Lemma sell_liquidates_whole_holding_witness :
  requests (copy_trade (accepting [lead_sell]) (Q2Qc 100) lead_sell btc_held).2
  = [SetMarginMode "spot_isolated" "BTC/USDT";
     CreateMarketOrder "BTC/USDT" "sell" (Q2Qc (2 # 1000))].
Proof.
  destruct (sell_liquidates_whole_holding (accepting [lead_sell]) (Q2Qc 100)
              lead_sell btc_held (Q2Qc (2 # 1000)))
    as [Hsold _]; [reflexivity..|].
  apply Hsold; reflexivity.
Defined.

(** C6 fails as stated.  0.002 BTC is held and the lead account sells, but
    the exchange does not support [set_margin_mode]: the request before the
    order raises, and no market sell is submitted. *)
Lemma sell_without_margin_mode_places_no_order :
  let r := copy_trade (no_margin_mode [lead_sell]) (Q2Qc 100) lead_sell btc_held in
  is_trade_processed "L2" btc_held = (inr false, btc_held)
  ∧ get_holding_amount "BTC/USDT" btc_held = (inr (Q2Qc (2 # 1000)), btc_held)
  ∧ 0 < Q2Qc (2 # 1000)
  ∧ requests r.2 = [SetMarginMode "spot_isolated" "BTC/USDT"]
  ∧ orders (requests r.2) = [].
Proof. cbn zeta. repeat split; reflexivity. Qed.

(** ** Sizing a buy *)

Lemma scenario_amount : Q2Qc 1000 * Q2Qc (1 # 10) / Q2Qc 50000 = Q2Qc (2 # 1000).
Proof. apply Qc_is_canon. reflexivity. Qed.

(** What an eligible lead buy at a price other than 0 sends and records. *)
Lemma buy_places_order exchange order_amount_usdt trade w :
  is_trade_processed (trade_order trade) w = (inr false, w) →
  market exchange (trade_symbol trade) = inr "USDT" →
  trade_side trade = "buy" →
  trade_price trade ≠ 0 →
  let amount := order_amount_usdt / trade_price trade in
  let r := copy_trade exchange order_amount_usdt trade w in
  requests r.2
  = requests w ++ [CreateMarketOrder (trade_symbol trade) "buy" amount]
  ∧ ∀ new_order,
      create_market_order exchange (requests w) (trade_symbol trade) "buy"
        amount = inr new_order →
      processed_trades (db w) !! new_order = None →
      get_holding_amount (trade_symbol trade) r.2
      = (inr (default 0 (holdings (db w) !! trade_symbol trade) + amount), r.2).
Proof.
  intros Hnew%eligible_unprocessed Hquote Hside Hprice. cbn zeta. split.
  - as_wp (copy_trade exchange order_amount_usdt trade) w. by wp_run.
  - intros new_order Hplaced Hfresh.
    unfold get_holding_amount, select_holding. rewrite bind_run.
    unfold mret, M_ret.
    as_wp (copy_trade exchange order_amount_usdt trade) w. wp_run.
    all: rewrite ?lookup_alter_eq, ?lookup_insert_eq; known; cbn.
    all: do 2 f_equal; ring.
Qed.

(** C7: an eligible lead buy at a price above 0, in a cycle that fetched the
    balance [usdt_balance], sends one request: a market buy of
    [usdt_balance * 0.1 / price].  With a balance of 1000 and a price of 50000
    the amount is 0.002.  When the order is accepted under an id not yet in
    [processed_trades], the holding of the symbol grows by that amount: from
    no holding it becomes the amount bought.  The whole cycle, run on an empty
    ledger with a balance of 1000 and one lead buy of BTC/USDT at 50000, buys
    0.002 and leaves a holding of 0.002. *)
Theorem buy_amount_is_tenth_of_balance exchange usdt_balance trade w :
  is_trade_processed (trade_order trade) w = (inr false, w) →
  market exchange (trade_symbol trade) = inr "USDT" →
  trade_side trade = "buy" →
  0 < trade_price trade →
  let amount := usdt_balance * Q2Qc (1 # 10) / trade_price trade in
  let r := copy_trade exchange (usdt_balance * Q2Qc (1 # 10)) trade w in
  requests r.2
  = requests w ++ [CreateMarketOrder (trade_symbol trade) "buy" amount]
  ∧ (usdt_balance = Q2Qc 1000 → trade_price trade = Q2Qc 50000 →
     amount = Q2Qc (2 # 1000))
  ∧ (∀ new_order,
       create_market_order exchange (requests w) (trade_symbol trade) "buy"
         amount = inr new_order →
       processed_trades (db w) !! new_order = None →
       holdings (db w) !! trade_symbol trade = None →
       get_holding_amount (trade_symbol trade) r.2 = (inr amount, r.2))
  ∧ (let cycle := (poll_cycle (accepting [lead_buy]) initial_world).2 in
     orders (requests cycle)
     = [CreateMarketOrder "BTC/USDT" "buy" (Q2Qc (2 # 1000))]
     ∧ get_holding_amount "BTC/USDT" cycle = (inr (Q2Qc (2 # 1000)), cycle)).
Proof.
  intros Hnew Hquote Hside Hprice. cbn zeta.
  assert (trade_price trade ≠ 0) as Hnonzero.
  { intros Hzero. by apply (Qclt_not_eq _ _ Hprice). }
  destruct (buy_places_order exchange (usdt_balance * Q2Qc (1 # 10)) trade w
              Hnew Hquote Hside Hnonzero) as [Hsent Hheld].
  split; [exact Hsent|]. split; [|split].
  - intros -> ->. apply scenario_amount.
  - intros new_order Hplaced Hfresh Hnone.
    rewrite (Hheld new_order Hplaced Hfresh), Hnone. cbn.
    do 2 f_equal. ring.
  - rewrite <- scenario_amount. split; reflexivity.
Qed.

Lemma buy_amount_is_tenth_of_balance_witness :
  let r := copy_trade (accepting [lead_buy]) (Q2Qc 1000 * Q2Qc (1 # 10)) lead_buy
             initial_world in
  requests r.2 = [CreateMarketOrder "BTC/USDT" "buy" (Q2Qc (2 # 1000))]
  ∧ get_holding_amount "BTC/USDT" r.2 = (inr (Q2Qc (2 # 1000)), r.2).
Proof.
  destruct (buy_amount_is_tenth_of_balance (accepting [lead_buy]) (Q2Qc 1000)
              lead_buy initial_world)
    as (Hsent & Hamount & Hheld & _); [reflexivity..|].
  cbn zeta. rewrite <- (Hamount eq_refl eq_refl). split.
  - exact Hsent.
  - apply (Hheld "F0"); reflexivity.
Defined.

(** ** Prices that are not positive *)

(** C8, as the code has it: the price is not checked.  For an eligible lead
    buy at price 0 the division raises [ZeroDivisionError]; the last [except]
    clause logs it, no request is sent, nothing is committed and [amount] is
    not assigned.  At any other price, a negative one included, the division
    returns and the market buy is sent with the quotient as its amount. *)
Theorem buy_price_is_not_checked exchange order_amount_usdt trade w :
  is_trade_processed (trade_order trade) w = (inr false, w) →
  market exchange (trade_symbol trade) = inr "USDT" →
  trade_side trade = "buy" →
  let r := copy_trade exchange order_amount_usdt trade w in
  (trade_price trade = 0 →
   (truediv order_amount_usdt (trade_price trade) w).1 = inl ZeroDivisionError
   ∧ r.1 = inr ()
   ∧ requests r.2 = requests w
   ∧ db r.2 = db w ∧ committed r.2 = committed w
   ∧ local_amount r.2 = local_amount w
   ∧ logged r.2
     = logged w ++ [Info "Processing trade";
                    Error "Unexpected error placing new trade" ZeroDivisionError])
  ∧ (trade_price trade < 0 →
     (truediv order_amount_usdt (trade_price trade) w).1
     = inr (order_amount_usdt / trade_price trade)
     ∧ requests r.2
       = requests w ++ [CreateMarketOrder (trade_symbol trade) "buy"
                          (order_amount_usdt / trade_price trade)]).
Proof.
  intros Hnew Hquote Hside. cbn zeta. split.
  - intros Hzero. apply eligible_unprocessed in Hnew. split.
    { unfold truediv. by rewrite Hzero. }
    as_wp (copy_trade exchange order_amount_usdt trade) w. wp_run.
    by rewrite <- app_assoc.
  - intros Hneg.
    assert (trade_price trade ≠ 0) as Hnonzero.
    { intros Hzero. rewrite Hzero in Hneg. by apply (Qclt_not_eq _ _ Hneg). }
    split.
    { unfold truediv. by destruct (decide (trade_price trade = 0)). }
    by destruct (buy_places_order exchange order_amount_usdt trade w
                   Hnew Hquote Hside Hnonzero) as [Hsent _].
Qed.

Lemma buy_price_is_not_checked_witness :
  (let r := copy_trade (accepting []) (Q2Qc 100) (lead_buy_at 0) initial_world in
   r.1 = inr () ∧ requests r.2 = []
   ∧ logged r.2 = [Info "Processing trade";
                   Error "Unexpected error placing new trade" ZeroDivisionError])
  ∧ (let r := copy_trade (accepting []) (Q2Qc 100) (lead_buy_at (Q2Qc (-50000)))
                initial_world in
     requests r.2
     = [CreateMarketOrder "BTC/USDT" "buy" (Q2Qc 100 / Q2Qc (-50000))]).
Proof.
  split.
  - destruct (buy_price_is_not_checked (accepting []) (Q2Qc 100) (lead_buy_at 0)
                initial_world) as [Hzero _]; [reflexivity..|].
    destruct (Hzero eq_refl) as (_ & Hret & Hsent & _ & _ & _ & Hlog).
    by repeat split.
  - destruct (buy_price_is_not_checked (accepting []) (Q2Qc 100)
                (lead_buy_at (Q2Qc (-50000))) initial_world)
      as [_ Hneg]; [reflexivity..|].
    apply Hneg. reflexivity.
Defined.

(** C8 fails as stated.  At the price -50000 the sizing returns a quotient,
    -0.002, and the order is sent with it; at the price 0 it raises
    [ZeroDivisionError]; in neither case an [InvalidPrice] error. *)
Lemma nonpositive_price_is_not_rejected :
  Q2Qc (-50000) < 0
  ∧ (truediv (Q2Qc 100) (Q2Qc (-50000)) initial_world).1
    = inr (Q2Qc 100 / Q2Qc (-50000))
  ∧ Q2Qc 100 / Q2Qc (-50000) = Q2Qc (-2 # 1000)
  ∧ orders (requests (copy_trade (accepting []) (Q2Qc 100)
                        (lead_buy_at (Q2Qc (-50000))) initial_world).2)
    = [CreateMarketOrder "BTC/USDT" "buy" (Q2Qc 100 / Q2Qc (-50000))]
  ∧ (truediv (Q2Qc 100) 0 initial_world).1 = inl ZeroDivisionError
  ∧ (truediv (Q2Qc 100) (Q2Qc (-50000)) initial_world).1
    ≠ inl (OtherException "InvalidPrice")
  ∧ (truediv (Q2Qc 100) 0 initial_world).1 ≠ inl (OtherException "InvalidPrice").
Proof.
  repeat split; try reflexivity; try discriminate.
  apply Qc_is_canon. reflexivity.
Qed.

(** ** One polling cycle *)

Lemma copy_trade_sends exchange q trade w :
  ∃ sent, requests (copy_trade exchange q trade w).2 = requests w ++ sent
          ∧ Forall (sized q trade) sent.
Proof.
  as_wp (copy_trade exchange q trade) w. wp_run.
  all: try by (exists []; split; [by rewrite app_nil_r | constructor]).
  all: rewrite <- ?app_assoc; eexists; split; [reflexivity|].
  all: repeat constructor; try done; intros; congruence.
Qed.

Lemma for_each_copy_trade_sends exchange q trades : ∀ w,
  ∃ sent,
    requests (for_each trades (copy_trade exchange q) w).2 = requests w ++ sent
    ∧ Forall (λ r, ∃ trade, trade ∈ trades ∧ sized q trade r) sent.
Proof.
  induction trades as [|trade trades IH]; intros w.
  - exists []. split; [by rewrite app_nil_r | constructor].
  - cbn [for_each]. rewrite bind_run.
    destruct (copy_trade_sends exchange q trade w) as (sent1 & Hsent1 & Hsized1).
    assert (Forall (λ r, ∃ t, t ∈ trade :: trades ∧ sized q t r) sent1) as Hfirst.
    { eapply Forall_impl; [|exact Hsized1]. intros r Hr. exists trade.
      split; [apply list_elem_of_here | done]. }
    destruct (copy_trade exchange q trade w) as [[e|[]] w1]; cbn in Hsent1.
    + by exists sent1.
    + destruct (IH w1) as (sent2 & Hsent2 & Hsized2).
      exists (sent1 ++ sent2). split.
      * by rewrite Hsent2, Hsent1, app_assoc.
      * apply Forall_app. split; [done|].
        eapply Forall_impl; [|exact Hsized2]. intros r (t & Ht & Hr).
        exists t. split; [by apply list_elem_of_further | done].
Qed.

Lemma elem_of_rev {A : Type} (x : A) (l : list A) : x ∈ rev l → x ∈ l.
Proof. rewrite !list_elem_of_In. apply in_rev. Qed.

Lemma sized_not_fetch q trade r : sized q trade r → r ≠ FetchBalance.
Proof. by destruct r. Qed.

(** C9: a polling cycle sends [FetchBalance] first and never again; and
    when the balance came back as [usdt_balance], every market buy the cycle
    sends is for a trade of the page fetched in this cycle, with the amount
    [usdt_balance * 0.1 / price]: each buy of the page is sized from the same
    balance, the one fetched when the cycle began. *)
Theorem balance_fetched_once_per_cycle exchange w :
  ∃ sent,
    requests (poll_cycle exchange w).2 = requests w ++ (FetchBalance :: sent)
    ∧ (FetchBalance ∉ sent)
    ∧ ∀ usdt_balance symbol amount,
        fetch_balance exchange (requests w) = inr usdt_balance →
        CreateMarketOrder symbol "buy" amount ∈ sent →
        ∃ trades trade,
          fetch_my_trades exchange (requests w ++ [FetchBalance; FetchAccounts])
            = inr trades
          ∧ trade ∈ trades
          ∧ trade_symbol trade = symbol ∧ trade_side trade = "buy"
          ∧ amount = usdt_balance * Q2Qc (1 # 10) / trade_price trade.
Proof.
  as_wp (poll_cycle exchange) w. wp_run.
  all: try by (rewrite <- ?app_assoc; eexists; split; [reflexivity|];
               split; [|intros ? ? ? _]; intros Hin;
               repeat (apply elem_of_cons in Hin as [?|Hin]; [discriminate|]);
               apply elem_of_nil in Hin).
  all: match goal with
       | |- wp (for_each ?ts (copy_trade _ ?q)) _ ?w1 =>
           destruct (for_each_copy_trade_sends exchange q ts w1)
             as (sent & Hsent & Hsized);
           unfold wp at 1;
           destruct (for_each ts (copy_trade exchange q) w1) as [[e|[]] w2]
       end.
  all: cbn [fst snd requests] in Hsent; wp_run.
  all: rewrite Hsent, <- !app_assoc; eexists; split; [reflexivity|]; split.
  all: cbn [app].
  all: try (intros [[=]|[[=]|Hin]%elem_of_cons]%elem_of_cons;
            apply (proj1 (list.Forall_forall _ _) Hsized) in Hin
              as (? & _ & ?%sized_not_fetch); done).
  all: intros b symbol amount [= <-] [[=]|[[=]|Hin]%elem_of_cons]%elem_of_cons.
  all: apply (proj1 (list.Forall_forall _ _) Hsized) in Hin
         as (trade & Hpage%elem_of_rev & Hsym & Hside & Hamount).
  all: eexists _, trade; rewrite <- app_assoc in *; repeat split; eauto.
Qed.

Lemma balance_fetched_once_per_cycle_witness :
  ∃ trades trade,
    fetch_my_trades (accepting [lead_buy_eth; lead_buy])
      ([] ++ [FetchBalance; FetchAccounts]) = inr trades
    ∧ trade ∈ trades
    ∧ trade_symbol trade = "ETH/USDT" ∧ trade_side trade = "buy"
    ∧ Q2Qc 1000 * Q2Qc (1 # 10) / Q2Qc 2500
      = Q2Qc 1000 * Q2Qc (1 # 10) / trade_price trade.
Proof.
  destruct (balance_fetched_once_per_cycle (accepting [lead_buy_eth; lead_buy])
              initial_world) as (sent & Hsent & _ & Hbuy).
  assert (requests (poll_cycle (accepting [lead_buy_eth; lead_buy])
                      initial_world).2
          = [FetchBalance; FetchAccounts; FetchMyTrades 10;
             CreateMarketOrder "BTC/USDT" "buy"
               (Q2Qc 1000 * Q2Qc (1 # 10) / Q2Qc 50000);
             CreateMarketOrder "ETH/USDT" "buy"
               (Q2Qc 1000 * Q2Qc (1 # 10) / Q2Qc 2500)]) as Hrun
    by reflexivity.
  rewrite Hrun in Hsent. injection Hsent as <-.
  apply (Hbuy (Q2Qc 1000)); [reflexivity|].
  do 3 apply list_elem_of_further. apply list_elem_of_here.
Defined.

(** * Further properties of the ledger and of the loop *)

(** ** Marking and looking up *)



(** ** Reading a holding back *)

(** A buy always adds: whatever the ledger, the holding read after
    [update_holdings symbol amount "buy"] is the holding read before plus
    [amount], an absent symbol counting as 0.  Any other side subtracts, when
    the symbol has a row. *)
Theorem update_then_get symbol amount w held :
  get_holding_amount symbol w = (inr held, w) →
  (get_holding_amount symbol (update_holdings symbol amount "buy" w).2).1
  = inr (held + amount)
  ∧ ∀ side, side ≠ "buy" → is_Some (holdings (db w) !! symbol) →
      (get_holding_amount symbol (update_holdings symbol amount side w).2).1
      = inr (held - amount).
Proof.
  intros Hheld%holding_amount_default. split.
  - destruct (update_holdings_stores symbol amount "buy" w) as [_ Hrow].
    unfold get_holding_amount, select_holding. rewrite bind_run.
    unfold mret, M_ret. cbn [fst snd]. rewrite Hrow.
    destruct (holdings (db w) !! symbol); cbn in Hheld; subst held; cbn.
    + done.
    + f_equal. ring.
  - intros side Hside [current Hcurrent].
    destruct (update_holdings_stores symbol amount side w) as [_ Hrow].
    unfold get_holding_amount, select_holding. rewrite bind_run.
    unfold mret, M_ret. cbn [fst snd]. rewrite Hrow, Hcurrent.
    rewrite Hcurrent in Hheld. cbn in Hheld. subst held.
    by destruct (decide (side = "buy")).
Qed.

Lemma update_then_get_witness :
  (get_holding_amount "ETH/USDT"
     (update_holdings "ETH/USDT" (Q2Qc 2) "buy" btc_held).2).1
  = inr (1 + Q2Qc 2)
  ∧ (get_holding_amount "ETH/USDT"
       (update_holdings "ETH/USDT" (Q2Qc 2) "sell" btc_held).2).1
    = inr (1 - Q2Qc 2).
Proof.
  destruct (update_then_get "ETH/USDT" (Q2Qc 2) btc_held 1) as [Hbuy Hother];
    [reflexivity|].
  split; [exact Hbuy|].
  apply Hother; [discriminate | by eexists].
Defined.

(** ** Trades the loop does not mirror *)

(** A trade on a market whose quote currency is not USDT is skipped with a
    warning: nothing is sent to the exchange and nothing is committed.  Its
    id is not marked either, so it is looked at again, and warned about
    again, in every cycle that fetches it. *)
Theorem other_quote_is_skipped_unmarked exchange order_amount_usdt trade w quote :
  is_trade_processed (trade_order trade) w = (inr false, w) →
  market exchange (trade_symbol trade) = inr quote →
  quote ≠ "USDT" →
  let r := copy_trade exchange order_amount_usdt trade w in
  r.1 = inr ()
  ∧ requests r.2 = requests w
  ∧ db r.2 = db w ∧ committed r.2 = committed w
  ∧ local_amount r.2 = local_amount w
  ∧ logged r.2 = logged w ++ [Info "Processing trade";
                              Warning "Skipping non-USDT market"]
  ∧ is_trade_processed (trade_order trade) r.2 = (inr false, r.2).
Proof.
  intros Hnew%eligible_unprocessed Hquote Hother. cbn zeta.
  rewrite !is_trade_processed_spec.
  as_wp (copy_trade exchange order_amount_usdt trade) w. wp_run.
  by rewrite <- app_assoc.
Qed.

Lemma other_quote_is_skipped_unmarked_witness :
  let r := copy_trade (accepting_markets []) (Q2Qc 100) lead_buy_eth_btc
             initial_world in
  requests r.2 = []
  ∧ logged r.2 = [Info "Processing trade"; Warning "Skipping non-USDT market"]
  ∧ is_trade_processed "L5" r.2 = (inr false, r.2).
Proof.
  destruct (other_quote_is_skipped_unmarked (accepting_markets []) (Q2Qc 100)
              lead_buy_eth_btc initial_world "BTC")
    as (_ & Hsent & _ & _ & _ & Hlog & Hstill);
    [reflexivity | reflexivity | discriminate |].
  by repeat split.
Defined.

(** A trade whose side is neither buy nor sell places no order and writes no
    holding, but falls through to the statement that marks the lead trade.
    When an earlier buy has bound the local [amount], the trade is marked as
    processed, with that buy's amount in its row; while [amount] is unbound,
    reading it raises and the trade is left unmarked. *)
Theorem other_side_is_marked_without_order exchange order_amount_usdt trade w :
  is_trade_processed (trade_order trade) w = (inr false, w) →
  market exchange (trade_symbol trade) = inr "USDT" →
  trade_side trade ≠ "buy" →
  trade_side trade ≠ "sell" →
  let r := copy_trade exchange order_amount_usdt trade w in
  r.1 = inr ()
  ∧ requests r.2 = requests w
  ∧ holdings (db r.2) = holdings (db w)
  ∧ (∀ bought, local_amount w = Some bought →
       processed_trades (db r.2) !! trade_order trade
       = Some {| pt_symbol := trade_symbol trade; pt_amount := bought;
                 pt_side := trade_side trade |}
       ∧ committed r.2
         = committed w ++ [InsertProcessedTrade (trade_order trade)
                             (trade_symbol trade) bought (trade_side trade)])
  ∧ (local_amount w = None →
       db r.2 = db w ∧ committed r.2 = committed w
       ∧ list.last (logged r.2)
         = Some (Error "Unexpected error placing new trade" UnboundLocalError)).
Proof.
  intros Hnew%eligible_unprocessed Hquote Hbuy Hsell. cbn zeta.
  as_wp (copy_trade exchange order_amount_usdt trade) w. wp_run.
  - exfalso. apply bool_decide_eq_false_1 in Hnew. apply Hnew. by eexists.
  - do 3 (split; [done|]). split; [|done].
    intros bought [= <-]. by rewrite lookup_insert_eq.
  - do 3 (split; [done|]). split; [done|].
    intros _. by rewrite last_snoc.
Qed.

Lemma other_side_is_marked_without_order_witness :
  let r := copy_trade (accepting []) (Q2Qc 100) lead_transfer f0_recorded in
  requests r.2 = []
  ∧ processed_trades (db r.2) !! "L4"
    = Some {| pt_symbol := "BTC/USDT"; pt_amount := 1; pt_side := "transfer" |}.
Proof.
  destruct (other_side_is_marked_without_order (accepting []) (Q2Qc 100)
              lead_transfer f0_recorded)
    as (_ & Hsent & _ & Hmarked & _);
    [reflexivity | reflexivity | discriminate | discriminate |].
  split; [exact Hsent|]. by destruct (Hmarked 1 eq_refl).
Defined.

(** ** Errors of one trade stay with that trade *)

(** Whatever the exchange answers to the margin-mode and order requests, and
    whatever the ledger holds, an iteration returns normally as long as the
    market lookup does: the only exception that leaves an iteration is the
    one raised by [exchange.market]. *)
Lemma copy_trade_returns exchange order_amount_usdt trade w :
  (∃ quote, market exchange (trade_symbol trade) = inr quote) →
  (copy_trade exchange order_amount_usdt trade w).1 = inr ().
Proof.
  intros [quote Hquote].
  as_wp (copy_trade exchange order_amount_usdt trade) w. by wp_run.
Qed.

(** When every symbol of the page is listed by the exchange, the loop over
    the page runs to its end, whichever orders fail. *)
Theorem order_errors_do_not_leave_the_loop exchange order_amount_usdt trades :
  ∀ w,
  Forall (λ trade, ∃ quote, market exchange (trade_symbol trade) = inr quote)
    trades →
  (for_each trades (copy_trade exchange order_amount_usdt) w).1 = inr ().
Proof.
  induction trades as [|trade trades IH]; intros w Hlisted; [done|].
  inversion Hlisted as [|? ? Hfirst Hrest]; subst.
  cbn [for_each]. rewrite bind_run.
  pose proof (copy_trade_returns exchange order_amount_usdt trade w Hfirst) as Hok.
  destruct (copy_trade exchange order_amount_usdt trade w) as [[e|[]] w1];
    [done|]. by apply IH.
Qed.

Lemma order_errors_do_not_leave_the_loop_witness :
  (for_each [lead_sell; lead_buy]
     (copy_trade (out_of_funds []) (Q2Qc 100)) btc_held).1 = inr ().
Proof.
  apply order_errors_do_not_leave_the_loop.
  repeat constructor; by exists "USDT".
Defined.

(** ** At most one order for a lead trade *)



(** After an eligible lead sell whose order the exchange accepted under an id
    not yet in [processed_trades], the symbol keeps its row, with a holding
    of 0; from that state no iteration over a sell of this symbol, whatever
    its order id and whatever the exchange, sends any request: the position
    is sold once. *)
Theorem accepted_sell_empties_the_holding exchange order_amount_usdt trade w
    held new_order :
  is_trade_processed (trade_order trade) w = (inr false, w) →
  market exchange (trade_symbol trade) = inr "USDT" →
  trade_side trade = "sell" →
  holdings (db w) !! trade_symbol trade = Some held →
  0 < held →
  set_margin_mode exchange (requests w) "spot_isolated" (trade_symbol trade)
    = inr () →
  create_market_order exchange
    (requests w ++ [SetMarginMode "spot_isolated" (trade_symbol trade)])
    (trade_symbol trade) "sell" held = inr new_order →
  processed_trades (db w) !! new_order = None →
  let w1 := (copy_trade exchange order_amount_usdt trade w).2 in
  holdings (db w1) !! trade_symbol trade = Some 0
  ∧ get_holding_amount (trade_symbol trade) w1 = (inr 0, w1)
  ∧ ∀ exchange' order_amount_usdt' trade',
      trade_symbol trade' = trade_symbol trade →
      trade_side trade' = "sell" →
      requests (copy_trade exchange' order_amount_usdt' trade' w1).2
      = requests w1.
Proof.
  intros Hnew%eligible_unprocessed Hquote Hside Hrow Hpos Hmargin Hplaced
    Hfresh w1.
  assert (holdings (db w1) !! trade_symbol trade = Some 0) as Hzero.
  { subst w1. as_wp (copy_trade exchange order_amount_usdt trade) w. wp_run.
    all: rewrite ?lookup_alter_eq; known; cbn.
    all: case_decide; [done|]; f_equal; ring. }
  split; [exact Hzero|]. split.
  - unfold get_holding_amount, select_holding. rewrite bind_run.
    unfold mret, M_ret. by rewrite Hzero.
  - intros exchange' q' trade' Hsymbol Hsell. rewrite <- Hsymbol in Hzero.
    clear Hnew Hquote Hside Hrow Hmargin Hplaced Hfresh.
    generalize dependent w1. intros w1 Hzero.
    as_wp (copy_trade exchange' q' trade') w1. wp_run.
    all: try done.
    all: by (exfalso; eapply Qclt_not_eq; [eassumption | done]).
Qed.

Lemma accepted_sell_empties_the_holding_witness :
  let w1 := (copy_trade (accepting []) (Q2Qc 100) lead_sell btc_held).2 in
  get_holding_amount "BTC/USDT" w1 = (inr 0, w1)
  ∧ requests (copy_trade (accepting []) (Q2Qc 100)
                {| trade_order := "L9"; trade_symbol := "BTC/USDT";
                   trade_side := "sell"; trade_price := 1 |} w1).2
    = requests w1.
Proof.
  destruct (accepted_sell_empties_the_holding (accepting []) (Q2Qc 100)
              lead_sell btc_held (Q2Qc (2 # 1000)) "F1")
    as (_ & Hget & Honce); [reflexivity..|].
  split; [exact Hget|]. by apply Honce.
Defined.

(** ** A polling cycle from its three opening requests *)

(** Uses what the hypotheses say about the answers that open a cycle. *)
Ltac answered :=
  repeat match goal with
  | H : fetch_balance _ _ = _ |- _ => progress rewrite H
  | H : fetch_accounts _ _ = _ |- _ => progress rewrite H
  | H : fetch_my_trades _ _ = _ |- _ => progress rewrite H
  end.

Ltac cycle_run := repeat first [ progress (answered; world) | wp_step ].

Lemma history_of_page (rs : list Request) :
  rs ++ [FetchBalance; FetchAccounts] = (rs ++ [FetchBalance]) ++ [FetchAccounts].
Proof. by rewrite <- app_assoc. Qed.

Lemma processed_page_is_skipped exchange q trades : ∀ w,
  Forall (λ trade, is_Some (processed_trades (db w) !! trade_order trade))
    trades →
  for_each trades (copy_trade exchange q) w = (inr (), w).
Proof.
  induction trades as [|trade trades IH]; intros w Hseen; [done|].
  inversion Hseen as [|? ? Hfirst Hrest]; subst.
  cbn [for_each]. rewrite bind_run. unfold copy_trade at 1. rewrite bind_run.
  rewrite is_trade_processed_spec, bool_decide_eq_true_2 by done.
  by apply IH.
Qed.

(** A cycle whose page holds only trades that are already processed (an
    empty page included) costs the three opening requests and one log line,
    and nothing else: no order, no write, the tables and the local [amount]
    as before. *)
Theorem processed_page_leaves_ledger exchange w usdt_balance page :
  fetch_balance exchange (requests w) = inr usdt_balance →
  fetch_accounts exchange (requests w ++ [FetchBalance]) = inr () →
  fetch_my_trades exchange (requests w ++ [FetchBalance; FetchAccounts])
    = inr page →
  Forall (λ trade, is_Some (processed_trades (db w) !! trade_order trade))
    page →
  let r := poll_cycle exchange w in
  r.1 = inr ()
  ∧ r.2 = {| db := db w; committed := committed w;
             requests := requests w
                         ++ [FetchBalance; FetchAccounts; FetchMyTrades 10];
             logged := logged w ++ [Info "Available USDT balance"];
             local_amount := local_amount w |}.
Proof.
  intros Hbalance Haccounts Hpage Hseen. rewrite history_of_page in Hpage.
  cbn zeta. as_wp (poll_cycle exchange) w. cycle_run.
  unfold wp. rewrite processed_page_is_skipped.
  - cbn. by rewrite <- !app_assoc.
  - apply Forall_rev. by cbn.
Qed.

Lemma processed_page_leaves_ledger_witness :
  db (poll_cycle (accepting [lead_buy])
        (poll_cycle (accepting [lead_buy]) initial_world).2).2
  = db (poll_cycle (accepting [lead_buy]) initial_world).2.
Proof.
  destruct (processed_page_leaves_ledger (accepting [lead_buy])
              (poll_cycle (accepting [lead_buy]) initial_world).2
              (Q2Qc 1000) [lead_buy]) as [_ Hstate]; [reflexivity..| |].
  - repeat constructor. vm_compute. by eexists.
  - by rewrite Hstate.
Defined.

(** When one of the three opening requests raises, the cycle stops there:
    the later opening requests are not sent, no trade is looked at, nothing
    is committed, and the exception is logged by one of the outer [except]
    clauses instead of leaving the loop.  In particular a failing
    [fetch_accounts], whose answer the loop only prints, keeps the page from
    being fetched at all. *)
Theorem failed_opening_request_skips_the_page exchange w e :
  let r := poll_cycle exchange w in
  (fetch_balance exchange (requests w) = inl e →
   r.1 = inr ()
   ∧ requests r.2 = requests w ++ [FetchBalance]
   ∧ db r.2 = db w ∧ committed r.2 = committed w
   ∧ local_amount r.2 = local_amount w
   ∧ ∃ msg, logged r.2 = logged w ++ [Error msg e])
  ∧ (∀ usdt_balance,
       fetch_balance exchange (requests w) = inr usdt_balance →
       fetch_accounts exchange (requests w ++ [FetchBalance]) = inl e →
       r.1 = inr ()
       ∧ requests r.2 = requests w ++ [FetchBalance; FetchAccounts]
       ∧ db r.2 = db w ∧ committed r.2 = committed w
       ∧ local_amount r.2 = local_amount w
       ∧ ∃ msg, logged r.2
                = logged w ++ [Info "Available USDT balance"; Error msg e])
  ∧ (∀ usdt_balance,
       fetch_balance exchange (requests w) = inr usdt_balance →
       fetch_accounts exchange (requests w ++ [FetchBalance]) = inr () →
       fetch_my_trades exchange (requests w ++ [FetchBalance; FetchAccounts])
         = inl e →
       r.1 = inr ()
       ∧ requests r.2
         = requests w ++ [FetchBalance; FetchAccounts; FetchMyTrades 10]
       ∧ db r.2 = db w ∧ committed r.2 = committed w
       ∧ local_amount r.2 = local_amount w
       ∧ ∃ msg, logged r.2
                = logged w ++ [Info "Available USDT balance"; Error msg e]).
Proof.
  cbn zeta. split; [|split].
  - intros Hbalance. as_wp (poll_cycle exchange) w. cycle_run.
    all: repeat split; try done; by eexists.
  - intros usdt_balance Hbalance Haccounts.
    as_wp (poll_cycle exchange) w. cycle_run.
    all: rewrite <- ?app_assoc; repeat split; try done; by eexists.
  - intros usdt_balance Hbalance Haccounts Hpage.
    rewrite history_of_page in Hpage.
    as_wp (poll_cycle exchange) w. cycle_run.
    all: rewrite <- ?app_assoc; repeat split; try done; by eexists.
Qed.

Lemma failed_opening_request_skips_the_page_witness :
  let r := poll_cycle (opening_with (inr (Q2Qc 1000)) (inl NetworkError)
                         (inr [lead_buy])) initial_world in
  requests r.2 = [FetchBalance; FetchAccounts]
  ∧ db r.2 = empty_db
  ∧ ∃ msg, logged r.2
           = [Info "Available USDT balance"; Error msg NetworkError].
Proof.
  destruct (failed_opening_request_skips_the_page
              (opening_with (inr (Q2Qc 1000)) (inl NetworkError)
                 (inr [lead_buy])) initial_world NetworkError)
    as (_ & Haccounts & _).
  destruct (Haccounts (Q2Qc 1000)) as (_ & Hsent & Hdb & _ & _ & Hlog);
    [reflexivity..|].
  by repeat split.
Defined.

(** An unprocessed trade on a symbol the exchange does not list makes
    [exchange.market] raise outside the inner [try]: the cycle is abandoned
    at that trade.  The trades fetched before it in the page, which the
    reversed loop would handle after it, are not looked at in this cycle: no
    order is sent and nothing is committed, however eligible they are. *)
Theorem unlisted_symbol_abandons_the_cycle exchange w usdt_balance page trade e :
  fetch_balance exchange (requests w) = inr usdt_balance →
  fetch_accounts exchange (requests w ++ [FetchBalance]) = inr () →
  fetch_my_trades exchange (requests w ++ [FetchBalance; FetchAccounts])
    = inr (page ++ [trade]) →
  is_trade_processed (trade_order trade) w = (inr false, w) →
  market exchange (trade_symbol trade) = inl e →
  let r := poll_cycle exchange w in
  r.1 = inr ()
  ∧ requests r.2
    = requests w ++ [FetchBalance; FetchAccounts; FetchMyTrades 10]
  ∧ db r.2 = db w ∧ committed r.2 = committed w
  ∧ local_amount r.2 = local_amount w
  ∧ ∃ msg, logged r.2
           = logged w ++ [Info "Available USDT balance";
                          Info "Processing trade"; Error msg e].
Proof.
  intros Hbalance Haccounts Hpage Hnew%eligible_unprocessed Hmarket.
  rewrite history_of_page in Hpage.
  cbn zeta. as_wp (poll_cycle exchange) w. cycle_run.
  all: rewrite rev_unit; cbn [for_each]; cycle_run.
  all: rewrite <- ?app_assoc; repeat split; try done; by eexists.
Qed.

Lemma unlisted_symbol_abandons_the_cycle_witness :
  let r := poll_cycle (accepting_markets [lead_buy; lead_buy_unlisted])
             initial_world in
  requests r.2 = [FetchBalance; FetchAccounts; FetchMyTrades 10]
  ∧ db r.2 = empty_db.
Proof.
  destruct (unlisted_symbol_abandons_the_cycle
              (accepting_markets [lead_buy; lead_buy_unlisted]) initial_world
              (Q2Qc 1000) [lead_buy] lead_buy_unlisted ExchangeError)
    as (_ & Hsent & Hdb & _); [reflexivity..|].
  by split.
Defined.

(** ** The loop as a whole *)

Lemma poll_cycle_returns exchange w : (poll_cycle exchange w).1 = inr ().
Proof.
  unfold poll_cycle, try_except.
  match goal with |- context [match ?body w with _ => _ end] =>
    destruct (body w) as [[e|[]] w1] end; [|done].
  by destruct e.
Qed.

Lemma balance_fetches_app rs1 rs2 :
  balance_fetches (rs1 ++ rs2)
  = (balance_fetches rs1 + balance_fetches rs2)%nat.
Proof. unfold balance_fetches. by rewrite List.filter_app, List.length_app. Qed.

Lemma balance_fetches_sized q (trades : list Trade) sent :
  Forall (λ r, ∃ trade, trade ∈ trades ∧ sized q trade r) sent →
  balance_fetches sent = 0%nat.
Proof.
  induction 1 as [|r sent (trade & _ & Hsized) _ IH]; [done|].
  change (r :: sent) with ([r] ++ sent). rewrite balance_fetches_app, IH.
  by destruct r.
Qed.

Lemma poll_cycle_fetches_once exchange w :
  balance_fetches (requests (poll_cycle exchange w).2)
  = S (balance_fetches (requests w)).
Proof.
  as_wp (poll_cycle exchange) w. wp_run.
  all: try by (rewrite ?balance_fetches_app; unfold balance_fetches; cbn; lia).
  all: match goal with
       | |- wp (for_each ?ts (copy_trade _ ?q)) _ ?w1 =>
           destruct (for_each_copy_trade_sends exchange q ts w1)
             as (sent & Hsent & Hsized%balance_fetches_sized);
           unfold wp at 1;
           destruct (for_each ts (copy_trade exchange q) w1) as [[e|[]] w2]
       end.
  all: cbn [fst snd requests] in Hsent; wp_run.
  all: rewrite Hsent, !balance_fetches_app, Hsized.
  all: unfold balance_fetches; cbn; lia.
Qed.

(** No exception leaves a polling cycle, so the loop never stops on an
    error: run for [n] turns, it returns normally after having asked for the
    balance exactly [n] times, whatever the exchange answered or raised in
    between. *)
Theorem loop_survives_every_error exchange n : ∀ w,
  let r := fetch_and_copy_trades exchange n w in
  r.1 = inr ()
  ∧ balance_fetches (requests r.2) = (n + balance_fetches (requests w))%nat.
Proof.
  induction n as [|n IH]; intros w; [done|].
  cbn zeta. cbn [fetch_and_copy_trades]. rewrite bind_run.
  pose proof (poll_cycle_returns exchange w) as Hok.
  pose proof (poll_cycle_fetches_once exchange w) as Honce.
  destruct (poll_cycle exchange w) as [[e|[]] w1]; [done|].
  cbn [fst snd] in Honce. destruct (IH w1) as [IHok IHn].
  split; [done|]. rewrite IHn, Honce. lia.
Qed.

(** ** What the loop keeps *)

Lemma insert_fresh_keeps (m : gmap string ProcessedTrade) k v id row :
  m !! k = None → m !! id = Some row → <[k:=v]> m !! id = Some row.
Proof. intros Hk Hid. rewrite lookup_insert_ne; [done | congruence]. Qed.

Lemma copy_trade_keeps_rows exchange q trade w ord_id row :
  processed_trades (db w) !! ord_id = Some row →
  processed_trades (db (copy_trade exchange q trade w).2) !! ord_id = Some row.
Proof.
  intros Hrow. as_wp (copy_trade exchange q trade) w. wp_run.
  all: try done.
  all: repeat (apply insert_fresh_keeps; [eassumption|]); done.
Qed.

(** A property of the tables that every iteration keeps is kept by the loop
    over a page, by a cycle, and by any number of cycles. *)
Lemma for_each_copy_trade_keeps (P : DB → Prop) exchange q :
  (∀ trade w, P (db w) → P (db (copy_trade exchange q trade w).2)) →
  ∀ trades w, P (db w) → P (db (for_each trades (copy_trade exchange q) w).2).
Proof.
  intros Hstep trades. induction trades as [|trade trades IH]; intros w HP;
    [done|].
  cbn [for_each]. rewrite bind_run.
  specialize (Hstep trade w HP).
  destruct (copy_trade exchange q trade w) as [[e|[]] w1]; [done|].
  by apply IH.
Qed.

Lemma poll_cycle_keeps (P : DB → Prop) exchange :
  (∀ q trade w, P (db w) → P (db (copy_trade exchange q trade w).2)) →
  ∀ w, P (db w) → P (db (poll_cycle exchange w).2).
Proof.
  intros Hstep w HP. as_wp (poll_cycle exchange) w. wp_run.
  all: try done.
  all: match goal with
       | |- wp (for_each ?ts (copy_trade _ ?q)) _ ?w1 =>
           pose proof (for_each_copy_trade_keeps P exchange q (Hstep q) ts w1 HP)
             as Hloop;
           unfold wp at 1;
           destruct (for_each ts (copy_trade exchange q) w1) as [[e|[]] w2]
       end.
  all: cbn [fst snd] in Hloop; by wp_run.
Qed.

Lemma fetch_and_copy_trades_keeps (P : DB → Prop) exchange :
  (∀ q trade w, P (db w) → P (db (copy_trade exchange q trade w).2)) →
  ∀ n w, P (db w) → P (db (fetch_and_copy_trades exchange n w).2).
Proof.
  intros Hstep n. induction n as [|n IH]; intros w HP; [done|].
  cbn [fetch_and_copy_trades]. rewrite bind_run.
  pose proof (poll_cycle_keeps P exchange Hstep w HP) as Hcycle.
  destruct (poll_cycle exchange w) as [[e|[]] w1]; [done|].
  by apply IH.
Qed.

(** [processed_trades] only grows: a row that is in the table stays there,
    unchanged, through any number of cycles, whatever the exchange answers.
    A trade once marked is therefore never unmarked. *)
Theorem processed_rows_are_kept exchange n w ord_id row :
  processed_trades (db w) !! ord_id = Some row →
  processed_trades (db (fetch_and_copy_trades exchange n w).2) !! ord_id
  = Some row.
Proof.
  intros Hrow.
  apply (fetch_and_copy_trades_keeps
           (λ d, processed_trades d !! ord_id = Some row)); [|done].
  intros q trade w'. apply copy_trade_keeps_rows.
Qed.

Lemma processed_rows_are_kept_witness :
  processed_trades
    (db (fetch_and_copy_trades (accepting [lead_sell; lead_buy]) 3
           f0_recorded).2) !! "F0"
  = Some {| pt_symbol := "ETH/USDT"; pt_amount := 1; pt_side := "buy" |}.
Proof. apply processed_rows_are_kept. reflexivity. Defined.

(** ** Holdings are never oversold *)

Lemma Qcdiv_nonneg (x y : Qc) : 0 ≤ x → 0 < y → 0 ≤ x / y.
Proof.
  intros Hx Hy. apply (Qcmult_lt_0_le_reg_r 0 (x / y) y Hy).
  rewrite Qcmult_0_l.
  replace (x / y * y) with x; [done|].
  field. intros Hzero. rewrite Hzero in Hy. by apply (Qclt_not_eq _ _ Hy).
Qed.

Lemma Qcplus_nonneg (x y : Qc) : 0 ≤ x → 0 ≤ y → 0 ≤ x + y.
Proof.
  intros Hx Hy. pose proof (Qcplus_le_compat 0 x 0 y Hx Hy) as Hsum.
  by rewrite Qcplus_0_l in Hsum.
Qed.

(** With a quote amount that is not negative and, for a buy, a price above
    0, an iteration keeps every holding at 0 or above: a buy adds a
    non-negative amount and a sell subtracts exactly what is held, so the
    ledger never shows more sold than was bought. *)
Theorem holdings_stay_nonnegative exchange order_amount_usdt trade w :
  0 ≤ order_amount_usdt →
  (trade_side trade = "buy" → 0 < trade_price trade) →
  nonnegative (holdings (db w)) →
  nonnegative (holdings (db (copy_trade exchange order_amount_usdt trade w).2)).
Proof.
  intros Hquote Hprice Hheld.
  as_wp (copy_trade exchange order_amount_usdt trade) w. wp_run.
  all: try done.
  all: intros symbol amount; rewrite ?lookup_alter, ?lookup_insert.
  all: case_decide; [|by apply Hheld]; subst symbol.
  all: repeat match goal with H : holdings _ !! _ = _ |- _ => rewrite H end.
  all: cbn; intros [= <-].
  all: lazymatch goal with
       | |- _ ≤ ?a - ?a => by replace (a - a) with 0 by ring
       | |- _ ≤ _ + _ / _ =>
           apply Qcplus_nonneg;
           [by eapply Hheld | apply Qcdiv_nonneg; [done | by apply Hprice]]
       | |- _ ≤ _ / _ => apply Qcdiv_nonneg; [done | by apply Hprice]
       end.
Qed.

Lemma holdings_stay_nonnegative_witness :
  nonnegative
    (holdings (db (copy_trade (accepting []) (Q2Qc 100) lead_sell btc_held).2)).
Proof.
  apply holdings_stay_nonnegative; [done | discriminate |].
  intros symbol amount. unfold btc_held. cbn.
  rewrite lookup_insert. case_decide; [by intros [= <-]|].
  rewrite lookup_singleton. case_decide; [by intros [= <-] | done].
Defined.

(** ** Starting on an existing file *)

(** [init_db] can run at every start.  Whatever tables the file has, both
    exist afterwards; a table that was there keeps its rows and a missing one
    is created empty, so a new file gives the empty ledger and the file an
    earlier process left gives back the very tables it held; running it
    twice is the same as running it once. *)
Theorem init_db_keeps_existing_rows d :
  (∃ ledger, tables (init_db d) = Some ledger
     ∧ (∀ rows, disk_processed_trades d = Some rows →
          processed_trades ledger = rows)
     ∧ (∀ rows, disk_holdings d = Some rows → holdings ledger = rows)
     ∧ (disk_processed_trades d = None → processed_trades ledger = ∅)
     ∧ (disk_holdings d = None → holdings ledger = ∅))
  ∧ init_db (init_db d) = init_db d
  ∧ (∀ ledger, tables d = Some ledger → tables (init_db d) = Some ledger)
  ∧ tables (init_db new_file) = Some empty_db.
Proof.
  destruct d as [[processed|] [held|]]; cbn.
  all: split; [eexists; split; [reflexivity|]; cbn; repeat split; congruence|].
  all: by repeat split.
Qed.

Lemma init_db_keeps_existing_rows_witness :
  tables (init_db (on_disk (db btc_held))) = Some (db btc_held).
Proof.
  destruct (init_db_keeps_existing_rows (on_disk (db btc_held)))
    as (_ & _ & Hkept & _).
  by apply Hkept.
Defined.

(** A trade marked by one process is still skipped by the next one: the
    restart keeps both tables, and the new process, on any exchange, leaves
    the state untouched for it.  What the restart loses is the local
    [amount], unbound again until the new process sizes a buy. *)
Theorem processed_trade_is_skipped_after_restart w trade :
  is_trade_processed (trade_order trade) w = (inr true, w) →
  ∃ w', restart w = Some w'
        ∧ db w' = db w
        ∧ local_amount w' = None
        ∧ ∀ exchange order_amount_usdt,
            copy_trade exchange order_amount_usdt trade w' = (inr (), w').
Proof.
  intros Hseen. rewrite is_trade_processed_spec in Hseen.
  eexists. split; [reflexivity|]. cbn. split; [by destruct (db w)|].
  split; [done|]. intros exchange q.
  unfold copy_trade. rewrite bind_run, is_trade_processed_spec. cbn.
  by replace (bool_decide (is_Some (processed_trades (db w) !! trade_order trade)))
    with true by congruence.
Qed.

Lemma processed_trade_is_skipped_after_restart_witness :
  ∃ w', restart f0_recorded = Some w'
        ∧ copy_trade (accepting []) (Q2Qc 100)
            {| trade_order := "F0"; trade_symbol := "ETH/USDT";
               trade_side := "buy"; trade_price := 1 |} w' = (inr (), w').
Proof.
  destruct (processed_trade_is_skipped_after_restart f0_recorded
              {| trade_order := "F0"; trade_symbol := "ETH/USDT";
                 trade_side := "buy"; trade_price := 1 |})
    as (w' & Hrestart & _ & _ & Hskip); [reflexivity|].
  exists w'. split; [exact Hrestart | apply Hskip].
Defined.
